(** * A message queue over an object store: swift/common/middleware/queue.py

    A shallow embedding of the queue middleware and of its sortable
    identifier generator, with the properties of the queue protocol that the
    code establishes (and the places where it does not).

    The code is Python 2 (it formats a float with [%x], which Python 3
    refuses), so the embedding follows Python 2 semantics: integer
    truncation of floats under [%x], ordering of mixed types, attribute
    lookup on new-style objects. *)

From Stdlib Require Import ZArith QArith List String Ascii Bool Lia.
From Stdlib Require Import DecimalString Permutation.
Import ListNotations.

Local Open Scope string_scope.
Local Open Scope Z_scope.

(** ** Python strings *)

Module PyStr.

Definition chars (s : string) : list ascii := list_ascii_of_string s.
Definition of_chars (l : list ascii) : string := string_of_list_ascii l.

Definition mem_char (c : ascii) (set : string) : bool :=
  existsb (Ascii.eqb c) (chars set).

Fixpoint drop_in (set : string) (l : list ascii) : list ascii :=
  match l with
  | [] => []
  | c :: l' => if mem_char c set then drop_in set l' else l
  end.

(** [s.lstrip(set)] and [s.rstrip(set)]: the argument is a set of
    characters, not a prefix or a suffix. *)
Definition lstrip (s set : string) : string :=
  of_chars (drop_in set (chars s)).

Definition rstrip (s set : string) : string :=
  of_chars (rev (drop_in set (rev (chars s)))).

Definition startswith (s p : string) : bool := String.prefix p s.

Definition endswith (s suf : string) : bool :=
  let n := String.length s in
  let m := String.length suf in
  (m <=? n)%nat && (String.substring (n - m) m s =? suf)%string.

(** [c in s] for a one-character string [c]. *)
Definition contains_char (c : ascii) (s : string) : bool := mem_char c s.

(** Truth value of a string: the empty string is false. *)
Definition truthy (s : string) : bool :=
  match s with EmptyString => false | _ => true end.

(** [s.split(sep, maxsplit)] for a one-character separator. *)
Fixpoint split_chars (sep : ascii) (maxsplit : nat) (cur : list ascii)
         (l : list ascii) : list string :=
  match l with
  | [] => [of_chars (rev cur)]
  | c :: l' =>
      match maxsplit with
      | O => [of_chars (rev cur ++ l)%list]
      | S m =>
          if Ascii.eqb c sep
          then of_chars (rev cur) :: split_chars sep m [] l'
          else split_chars sep maxsplit (c :: cur) l'
      end
  end.

Definition split (s : string) (sep : ascii) (maxsplit : nat) : list string :=
  split_chars sep maxsplit [] (chars s).

Definition lt (s1 s2 : string) : Prop := String.compare s1 s2 = Lt.

(** [s.rjust(width, c)]: pad on the left up to [width]. *)
Fixpoint fill (n : nat) (c : ascii) : string :=
  match n with O => "" | S k => String c (fill k c) end.

Definition rjust (s : string) (width : nat) (c : ascii) : string :=
  fill (width - String.length s) c ++ s.

End PyStr.

(** ** The [%x] conversion *)

Module Hex.

Definition digit (d : Z) : ascii :=
  match d with
  | 0 => "0" | 1 => "1" | 2 => "2" | 3 => "3" | 4 => "4" | 5 => "5"
  | 6 => "6" | 7 => "7" | 8 => "8" | 9 => "9" | 10 => "a" | 11 => "b"
  | 12 => "c" | 13 => "d" | 14 => "e" | _ => "f"
  end%char.

(** Digits of a non-negative number, most significant first; [fuel]
    bounds the number of digits. *)
Fixpoint digits_fuel (fuel : nat) (n : Z) : string :=
  match fuel with
  | O => ""
  | S f =>
      if n <? 16 then String (digit n) ""
      else digits_fuel f (n / 16) ++ String (digit (n mod 16)) ""
  end.

(** ['%x' % n] for [0 <= n]: the fuel [1 + log2 n] is at least the
    number of hexadecimal digits of [n]. *)
Definition of_nonneg (n : Z) : string :=
  digits_fuel (S (Z.to_nat (Z.log2 n))) n.

(** ['%0<width>x' % n]: zero padding goes after the sign. *)
Definition format (width : nat) (n : Z) : string :=
  if n <? 0
  then String "-"%char (PyStr.rjust (of_nonneg (- n)) (width - 1) "0"%char)
  else PyStr.rjust (of_nonneg n) width "0"%char.

(** Exactly [w] digits of [n], the specification [format] meets when
    [0 <= n < 16 ^ w]. *)
Fixpoint fixed (w : nat) (n : Z) : string :=
  match w with
  | O => ""
  | S k => fixed k (n / 16) ++ String (digit (n mod 16)) ""
  end.

End Hex.

(** ** Floats

    [time.time()] is a float; it is modelled by a rational.  [%x] applied
    to a float converts it with [int()], which truncates toward zero. *)

Definition py_int (q : Q) : Z := Z.quot (Qnum q) (Zpos (Qden q)).

Definition Qltb (a b : Q) : bool :=
  (Qnum a * Zpos (Qden b) <? Qnum b * Zpos (Qden a))%Z.

(** A float is binary64: it is a rational, and comparing floats is
    comparing rationals; but the product of two floats is the binary64
    nearest to their exact product (ties to the even significand), which
    is what [time.time() * 1000] is.  Products beyond the range of
    binary64 (2 ^ 1024 and more) are not floats and are outside the
    model. *)
Module Float64.

(** The integer nearest to [n / d], ties to even, for [0 <= n], [0 < d]. *)
Definition round_half_even (n d : Z) : Z :=
  let q := n / d in
  let r := n mod d in
  if 2 * r <? d then q
  else if d <? 2 * r then q + 1
  else if Z.even q then q else q + 1.

(** The integer part of the base-2 logarithm of [n / d], for [0 < n],
    [0 < d]. *)
Definition ilog2 (n d : Z) : Z :=
  let f := Z.log2 n - Z.log2 d in
  if n * 2 ^ Z.max 0 (- f) <? d * 2 ^ Z.max 0 f then f - 1 else f.

(** The binary64 nearest to a rational: a significand of 53 bits, or
    fewer below [2 ^ -1022], where the exponent stops at [-1074]. *)
Definition round (q : Q) : Q :=
  let n := Z.abs (Qnum q) in
  let d := Zpos (Qden q) in
  if n =? 0 then 0%Q
  else
    let e := Z.max (ilog2 n d - 52) (-1074) in
    let m := round_half_even (n * 2 ^ Z.max 0 (- e)) (d * 2 ^ Z.max 0 e) in
    let s := Z.sgn (Qnum q) in
    if 0 <=? e then Qmake (s * m * 2 ^ e) 1
    else Qmake (s * m) (Z.to_pos (2 ^ (- e))).

(** [x * y] on floats. *)
Definition mul (x y : Q) : Q := round (x * y)%Q.

End Float64.

(** ** The sortable identifier generator (queue.py, lines 8-24) *)

Definition COUNTER_DIGITS : nat := 3.
Definition ID_DIGITS : nat := 3.
Definition TIME_DIGITS : nat := 10.

Definition COUNTER_LIMIT : Z := Z.shiftl 1 (Z.of_nat COUNTER_DIGITS * 4).

(** [UID_FORMAT % (t, id, counter)] with [UID_FORMAT = '%010x%s%03x']. *)
Definition UID_FORMAT (t : Q) (id : string) (counter : Z) : string :=
  Hex.format TIME_DIGITS (py_int t) ++ id ++ Hex.format COUNTER_DIGITS counter.

(** An instance of [SortableUid].  [_id] is drawn once, at construction,
    from [uuid.uuid4().hex[:ID_DIGITS]]. *)
Record SortableUid : Type := mkSortableUid {
  _id : string;
  _counter : Z
}.

Module SortableUid_.

(** [SortableUid.get], given the reading of [time.time()]. *)
Definition get (now : Q) (self : SortableUid) : string * SortableUid :=
  let self' := {| _id := _id self;
                  _counter := (_counter self + 1) mod COUNTER_LIMIT |} in
  (UID_FORMAT (Float64.mul now 1000) (_id self') (_counter self'), self').

(** Identifiers issued one after the other by one instance, at the clock
    readings [ts]. *)
Fixpoint issue (ts : list Q) (self : SortableUid) : list string :=
  match ts with
  | [] => []
  | t :: ts' => let (i, self') := get t self in i :: issue ts' self'
  end.

(** The millisecond timestamp an identifier issued at reading [t]
    carries. *)
Definition millis (t : Q) : Z := py_int (Float64.mul t 1000).

End SortableUid_.


(** ** Python values

    The values [json.loads] builds and the dynamic operations the
    middleware applies to them, each with the exception Python raises when
    the value has the wrong type. *)

#[warnings="-register-all"]
Inductive value : Type :=
| VNone
| VBool (b : bool)
| VNum (q : Q)
| VStr (s : string)
| VList (l : list value)
| VDict (kvs : list (string * value)).

Inductive body : Type :=
| Text (s : string)   (* a body that is not a JSON document *)
| Json (v : value).   (* a body whose text is the JSON document of [v] *)

Record Response : Type := mkResponse {
  status_int : nat;
  resp_body : body
}.

Inductive exn : Type :=
| AttributeError
| TypeError
| KeyError
| ValueError
| Exception_ (msg : string).

Module Py.

Definition truthy (v : value) : bool :=
  match v with
  | VNone => false
  | VBool b => b
  | VNum q => negb (Qnum q =? 0)
  | VStr s => PyStr.truthy s
  | VList l => match l with [] => false | _ => true end
  | VDict kvs => match kvs with [] => false | _ => true end
  end.

Definition truthy_opt (o : option string) : bool :=
  match o with None => false | Some s => PyStr.truthy s end.

(** [for x in v]: the elements a [for] loop visits. *)
Definition iter (v : value) : exn + list value :=
  match v with
  | VList l => inr l
  | VDict kvs => inr (map (fun kv => VStr (fst kv)) kvs)
  | VStr s => inr (map (fun c => VStr (String c "")) (PyStr.chars s))
  | _ => inl TypeError
  end.

Fixpoint assoc (k : string) (kvs : list (string * value)) : option value :=
  match kvs with
  | [] => None
  | (k', v) :: rest => if (k' =? k)%string then Some v else assoc k rest
  end.

(** [v[key]] for a string key. *)
Definition getitem (v : value) (key : string) : exn + value :=
  match v with
  | VDict kvs =>
      match assoc key kvs with Some x => inr x | None => inl KeyError end
  | _ => inl TypeError
  end.

(** [v[-1]]. *)
Definition last_item (v : value) : exn + value :=
  match v with
  | VList l =>
      match rev l with x :: _ => inr x | [] => inl (Exception_ "IndexError") end
  | VStr s =>
      match rev (PyStr.chars s) with
      | c :: _ => inr (VStr (String c ""))
      | [] => inl (Exception_ "IndexError")
      end
  | VDict _ => inl KeyError
  | _ => inl TypeError
  end.

(** A string method applied to a value: only strings have them. *)
Definition as_str (v : value) : exn + string :=
  match v with VStr s => inr s | _ => inl AttributeError end.

(** [x < v] for a float [x], as Python 2 orders mixed types: [None] is
    below every number, a number is below every string, list and dict. *)
Definition float_lt (x : Q) (v : value) : bool :=
  match v with
  | VNone => false
  | VBool b => Qltb x (if b then 1 else 0)%Q
  | VNum q => Qltb x q
  | VStr _ | VList _ | VDict _ => true
  end.

(** [s + v] for a string [s]. *)
Definition concat_str (s : string) (v : value) : exn + string :=
  match v with VStr t => inr (s ++ t) | _ => inl TypeError end.

(** ['%s' % x] for a string or [None]. *)
Definition str_opt (o : option string) : string :=
  match o with Some s => s | None => "None" end.

Definition json_loads (b : body) : exn + value :=
  match b with Json v => inr v | Text _ => inl ValueError end.

Definition json_dumps (v : value) : body := Json v.

End Py.

(** ** Requests and responses

    Modelled from the spec: the transport layer, which section 1 names as
    a collaborator and which is missing here ([Request], [Response] and the
    [HTTP...] responses of swift.common.swob, [make_env] of
    swift.common.wsgi, [split_path] of swift.common.utils).  The model
    keeps what the middleware reads and sets: the method, the script name,
    the path, the query string and the body of a request; the status and
    the body of a response.

    A body is kept as the Python value its JSON text denotes, when it is a
    JSON document ([json.loads] of such a body is that value, [json.dumps]
    builds such a body), and as plain text otherwise ([json.loads] of it
    raises [ValueError]). *)

Record Request : Type := mkRequest {
  method : string;
  script_name : string;
  path_info : string;
  query_string : string;
  req_body : body
}.

(** [resp.status] starts with the status code in decimal; the middleware
    only looks at its first character. *)
Definition status (r : Response) : string :=
  NilEmpty.string_of_uint (Nat.to_uint (status_int r)).

Definition status0_is_2 (r : Response) : bool :=
  match status r with
  | String c _ => Ascii.eqb c "2"%char
  | EmptyString => false
  end.

Definition HTTPPreconditionFailed (b : body) : Response := mkResponse 412 b.
Definition HTTPBadRequest : Response := mkResponse 400 (Text "").
Definition HTTPNoContent : Response := mkResponse 204 (Text "").
Definition HTTPCreated (b : body) : Response := mkResponse 201 b.
Definition HTTPNotFound : Response := mkResponse 404 (Text "").
Definition Response_ (b : body) : Response := mkResponse 200 b.

(** [make_env(req.environ, method=..., query_string=...)] of
    swift.common.wsgi: the environment of a sub-request, which keeps the
    script name, the path and (unless one is given) the query string of the
    incoming request and has an empty body. *)
Definition make_env (req : Request) (meth : string) (qs : option string)
  : Request :=
  {| method := meth;
     script_name := script_name req;
     path_info := path_info req;
     query_string := match qs with Some q => q | None => query_string req end;
     req_body := Text "" |}.

Definition set_path_info (req : Request) (p : string) : Request :=
  {| method := method req; script_name := script_name req; path_info := p;
     query_string := query_string req; req_body := req_body req |}.

Definition set_method (req : Request) (m : string) : Request :=
  {| method := m; script_name := script_name req; path_info := path_info req;
     query_string := query_string req; req_body := req_body req |}.

Definition set_query_string (req : Request) (q : string) : Request :=
  {| method := method req; script_name := script_name req;
     path_info := path_info req; query_string := q; req_body := req_body req |}.

(** [req.path_info_pop()]: the first path segment moves to the script
    name. *)
Definition path_info_pop (req : Request) : Request :=
  match path_info req with
  | String "/" rest =>
      let seg := hd "" (PyStr.split rest "/" 1) in
      let n := S (String.length seg) in
      {| method := method req;
         script_name := script_name req ++ String.substring 0 n (path_info req);
         path_info := String.substring n (String.length (path_info req) - n)
                        (path_info req);
         query_string := query_string req;
         req_body := req_body req |}
  | _ => req
  end.

(** [split_path(path, minsegs, maxsegs, rest_with_last=True)] of
    swift.common.utils; [None] stands for [ValueError]. *)
Definition split_path (path : string) (minsegs maxsegs : nat)
  : option (list (option string)) :=
  let segs := PyStr.split path "/" maxsegs in
  let minsegs' := S minsegs in
  let maxsegs' := S maxsegs in
  let count := List.length segs in
  if PyStr.truthy (hd "" segs)
     || (count <? minsegs')%nat || (maxsegs' <? count)%nat
     || existsb (fun s => negb (PyStr.truthy s))
          (firstn (minsegs' - 1) (skipn 1 segs))
  then None
  else
    let segs1 := firstn (maxsegs' - 1) (skipn 1 segs) in
    Some (map Some segs1
          ++ repeat None (maxsegs' - 1 - List.length segs1))%list.

(** ** The world the middleware runs in

    The backing store is the WSGI application [app] the middleware wraps:
    a transition of the store's state [S] on each request.  The world also
    holds what else the code reads or changes: the log of requests sent to
    the store, the identifier generator of the instance and the clock. *)

Section World.

Variable S : Type.

Record World : Type := mkWorld {
  store : S;
  sent : list Request;
  _uid_generator : SortableUid;
  clock : nat -> Q;
  ticks : nat
}.

(** The outcome of running a piece of the middleware: a value, an
    exception, or a paging loop that did not finish within its fuel. *)
Inductive result (A : Type) : Type :=
| Ok (a : A) (w : World)
| Raise (e : exn) (w : World)
| OutOfFuel.

Definition M (A : Type) : Type := World -> result A.

Definition ret {A} (a : A) : M A := fun w => Ok A a w.
Definition raise {A} (e : exn) : M A := fun w => Raise A e w.
Definition bind {A B} (c : M A) (k : A -> M B) : M B :=
  fun w =>
    match c w with
    | Ok _ a w' => k a w'
    | Raise _ e w' => Raise B e w'
    | OutOfFuel _ => OutOfFuel B
    end.

(** A pure step that may raise. *)
Definition lift {A} (r : exn + A) : M A :=
  match r with inr a => ret a | inl e => raise e end.

(** The world after a request: the store moved to [s'], the request
    logged. *)
Definition sending (w : World) (req : Request) (s' : S) : World :=
  {| store := s'; sent := (sent w ++ [req])%list;
     _uid_generator := _uid_generator w;
     clock := clock w; ticks := ticks w |}.

(** The world after a reading of the clock. *)
Definition ticking (w : World) : World :=
  {| store := store w; sent := sent w;
     _uid_generator := _uid_generator w;
     clock := clock w; ticks := Datatypes.S (ticks w) |}.

(** [time.time()]. *)
Definition time_time : M Q :=
  fun w => Ok Q (clock w (ticks w)) (ticking w).

(** The middleware instance: [self.app] and [self.prefix]; the mutable
    [self._uid_generator] lives in the world. *)
Record MessageQueue : Type := mkMessageQueue {
  app : Request -> S -> Response * S;
  prefix : string
}.

(** [req.get_response(self.app)]. *)
Definition get_response (self : MessageQueue) (req : Request) : M Response :=
  fun w =>
    let (resp, s') := app self req (store w) in
    Ok Response resp (sending w req s').

End World.

Arguments Ok {S A} a w.
Arguments Raise {S A} e w.
Arguments OutOfFuel {S A}.
Arguments ret {S A} a _.
Arguments raise {S A} e _.
Arguments bind {S A B} c k _.
Arguments lift {S A} r _.
Arguments time_time {S} _.
Arguments sending {S} w req s'.
Arguments ticking {S} w.
Arguments get_response {S} self req _.
Arguments mkWorld {S}.
Arguments store {S}.
Arguments sent {S}.
Arguments _uid_generator {S}.
Arguments clock {S}.
Arguments ticks {S}.
Arguments mkMessageQueue {S}.
Arguments app {S}.
Arguments prefix {S}.

Notation "x <- c ;; k" := (bind c (fun x => k))
  (at level 61, c at next level, right associativity).

(** ** The middleware (queue.py, lines 27-189) *)

Section Middleware.

Context {S : Type}.
Variable self : MessageQueue S.

Definition obj_path (account container obj : string) : string :=
  "/" ++ account ++ "/" ++ container ++ "/" ++ obj.

(** [generate_id]: one call of [self._uid_generator.get()]. *)
Definition generate_id : M S string :=
  now <- time_time ;;
  fun w =>
    let (new_id, g) := SortableUid_.get now (_uid_generator w) in
    Ok new_id
       {| store := store w; sent := sent w; _uid_generator := g;
          clock := clock w; ticks := ticks w |}.

(** [is_deleted]: a HEAD on the tombstone of the message.  Its last line,
    [raise resp], is given the response of [get_response], which is not
    an exception, so Python raises [TypeError] there. *)
Definition is_deleted (req : Request) (account container obj : string)
  : M S bool :=
  let new_req :=
    set_path_info (make_env req "HEAD" None)
                  (obj_path account container obj ++ "/deleted") in
  resp <- get_response self new_req ;;
  if status0_is_2 resp then ret true
  else if (status_int resp =? 404)%nat then ret false
  else raise TypeError.

(** [list_container]: one page of the listing of the container, as the
    value [json.loads] gives.  [marker] is [None] or the last name of the
    page before. *)
Definition list_container (req : Request) (account container : string)
           (marker : value) : M S value :=
  let new_req :=
    set_path_info (make_env req "GET" (Some "format=json"))
                  ("/" ++ account ++ "/" ++ container) in
  new_req <- (if Py.truthy marker
              then m <- lift (Py.concat_str "&marker=" marker) ;;
                   ret (set_query_string new_req (query_string new_req ++ m))
              else ret new_req) ;;
  resp <- get_response self new_req ;;
  if (status_int resp =? 204)%nat then ret (VList [])
  else if ((status_int resp <? 200) || (300 <=? status_int resp))%nat
  then raise (Exception_ "Error querying object server")
  else
    data <- lift (Py.json_loads (resp_body resp)) ;;
    ret data.

(** [still_pending]: its body is [pass], so it returns [None]. *)
Definition still_pending (req : Request) (account container : string)
           (pending : option string) : M S value :=
  ret VNone.

(** [self.increment]: the class defines no such attribute, so the
    lookup raises. *)
Definition increment (x : string) : M S string :=
  raise AttributeError.

(** [get_message]; the result [None] is Python's [None]. *)
Definition get_message (req : Request) (account container msg : string)
           (pending : option string) : M S (option Response) :=
  let claim : M S (option Response) :=
    let new_env := make_env req "PUT" None in
    obj <- (if Py.truthy_opt pending
            then increment (Py.str_opt pending)
            else increment msg) ;;
    let new_env := set_path_info new_env (obj_path account container obj) in
    (* [new_req = Request(new_env)] is built and never sent; the function
       ends here, returning [None]. *)
    ret None in
  if Py.truthy_opt pending then
    let new_req :=
      set_path_info (make_env req "GET" None)
                    (obj_path account container (Py.str_opt pending)) in
    resp <- get_response self new_req ;;
    if negb (status0_is_2 resp) then ret (Some resp)
    else
      data <- lift (Py.json_loads (resp_body resp)) ;;
      now <- time_time ;;
      expires <- lift (Py.getitem data "expires") ;;
      if Py.float_lt now expires then ret None
      else claim
  else claim.

(** [get_message_list] is a generator consumed by one [for] loop; it is
    given the body of that loop, [each], which answers [Some r] when the
    loop returns [r] and [None] when it goes on to the next element.

    Within one page ([for item in data]): *)
Fixpoint get_message_list_page {R} (each : string -> option string -> M S (option R))
         (items : list value) (deleted : bool) (pending : option string)
  : M S (option R) :=
  match items with
  | [] => ret None
  | item :: rest =>
      name <- lift (match Py.getitem item "name" with
                    | inr n => Py.as_str n
                    | inl e => inl e
                    end) ;;
      if PyStr.endswith name "/deleted" then
        get_message_list_page each rest true pending
      else if PyStr.endswith name "/msg" then
        if negb deleted then
          r <- each (PyStr.rstrip name "/msg") pending ;;
          match r with
          | Some x => ret (Some x)
          | None => get_message_list_page each rest false None
          end
        else get_message_list_page each rest false None
      else if PyStr.contains_char "/" name && negb deleted then
        get_message_list_page each rest deleted (Some name)
      else get_message_list_page each rest deleted pending
  end.

(** Over the pages ([while data]); [fuel] bounds the number of pages. *)
Fixpoint get_message_list_pages {R} (fuel : nat)
         (each : string -> option string -> M S (option R))
         (req : Request) (account container : string) (data : value)
  : M S (option R) :=
  if Py.truthy data then
    match fuel with
    | O => fun _ => OutOfFuel
    | Datatypes.S fuel' =>
        items <- lift (Py.iter data) ;;
        r <- get_message_list_page each items false None ;;
        match r with
        | Some x => ret (Some x)
        | None =>
            marker <- lift (match Py.last_item data with
                            | inr it => Py.getitem it "name"
                            | inl e => inl e
                            end) ;;
            data' <- list_container req account container marker ;;
            get_message_list_pages fuel' each req account container data'
        end
    end
  else ret None.

Definition get_message_list {R} (fuel : nat)
           (each : string -> option string -> M S (option R))
           (req : Request) (account container : string) : M S (option R) :=
  data <- list_container req account container VNone ;;
  get_message_list_pages fuel each req account container data.

(** The body of the [for] loop of [GET] (lines 82-89): [None] is
    [continue], [Some resp] is [return resp]. *)
Definition GET_each (req : Request) (account container : string)
           (msg : string) (pending : option string)
  : M S (option Response) :=
  d <- is_deleted req account container msg ;;
  if d then ret None
  else
    p <- still_pending req account container pending ;;
    if Py.truthy p then ret None
    else
      resp <- get_message req account container msg pending ;;
      match resp with
      | None => raise AttributeError   (* [None.status] *)
      | Some r => if negb (status0_is_2 r) then ret None else ret (Some r)
      end.

(** The loop over the account listing in [GET] (lines 98-101). *)
Fixpoint GET_queues (objs : list value) (queues : list value)
  : exn + list value :=
  match objs with
  | [] => inr queues
  | o :: rest =>
      match Py.as_str o with
      | inl e => inl e
      | inr s =>
          if PyStr.startswith s (prefix self) then
            match Py.getitem o "name" with
            | inl e => inl e
            | inr n =>
                match Py.as_str n with
                | inl e => inl e
                | inr ns =>
                    let q := VDict [("name", VStr (PyStr.lstrip ns (prefix self)))] in
                    GET_queues rest (queues ++ [q])%list
                end
            end
          else GET_queues rest queues
      end
  end.

(** A handler's result is a response or Python's [None]. *)
Definition GET (fuel : nat) (req : Request) (account container : string)
           (obj : option string) : M S (option Response) :=
  if Py.truthy_opt obj then
    d <- is_deleted req account container (Py.str_opt obj) ;;
    if d then ret (Some HTTPNoContent)
    else get_message req account container (Py.str_opt obj) None
  else if PyStr.truthy container then
    r <- get_message_list fuel (GET_each req account container)
           req account container ;;
    match r with
    | Some resp => ret (Some resp)
    | None => ret (Some HTTPNoContent)
    end
  else
    let req := set_query_string req "format=json" in
    resp <- get_response self req ;;
    if status0_is_2 resp then
      objs <- lift (Py.json_loads (resp_body resp)) ;;
      items <- lift (Py.iter objs) ;;
      queues <- lift (GET_queues items []) ;;
      let msg := VDict [("queues", VList queues)] in
      ret (Some (Response_ (Py.json_dumps msg)))
    else ret (Some resp).

Definition POST (req : Request) (account container : string)
           (obj : option string) : M S (option Response) :=
  if Py.truthy_opt obj then
    if negb (Py.str_opt obj =? "message")%string then ret (Some HTTPBadRequest)
    else
      new_id <- generate_id ;;
      let req := set_path_info req (obj_path account container new_id ++ "/msg") in
      let req := set_method req "PUT" in
      resp <- get_response self req ;;
      if status0_is_2 resp then
        let created :=
          Py.json_dumps (VDict [("message", VDict [("id", VStr new_id)])]) in
        ret (Some (HTTPCreated created))
      else ret (Some resp)
  else if PyStr.truthy container then
    let req := set_method req "PUT" in
    let req := set_path_info req ("/" ++ account ++ "/" ++ container) in
    resp <- get_response self req ;;
    ret (Some resp)
  else ret (Some HTTPBadRequest).

Definition DELETE (req : Request) (account container : string)
           (obj : option string) : M S (option Response) :=
  if Py.truthy_opt obj then
    d <- is_deleted req account container (Py.str_opt obj) ;;
    if d then ret (Some HTTPNotFound)
    else
      let req := set_method req "PUT" in
      let req :=
        set_path_info req
          (obj_path account container (Py.str_opt obj) ++ "/deleted") in
      resp <- get_response self req ;;
      ret (Some resp)
  else if PyStr.truthy container then ret (Some HTTPBadRequest)
  else ret (Some HTTPBadRequest).

(** *** Dispatch

    [getattr(self, req.method)] finds any attribute of the instance: the
    three handlers, the other methods of the class, the fields set by
    [__init__], and the attributes every Python 2 object has. *)
Inductive attribute : Type :=
| A_POST | A_GET | A_DELETE
| A_generate_id | A_is_deleted | A_get_message_list | A_get_message
| A_list_container | A_still_pending
| A_init | A_call
| A_field      (* [app], [prefix], [_uid_generator] *)
| A_object.    (* inherited from [object] *)

Definition object_attributes : list string :=
  [ "__class__"; "__delattr__"; "__dict__"; "__doc__"; "__format__";
    "__getattribute__"; "__hash__"; "__module__"; "__new__"; "__reduce__";
    "__reduce_ex__"; "__repr__"; "__setattr__"; "__sizeof__"; "__str__";
    "__subclasshook__"; "__weakref__" ].

Definition getattr (name : string) : option attribute :=
  if (name =? "POST")%string then Some A_POST
  else if (name =? "GET")%string then Some A_GET
  else if (name =? "DELETE")%string then Some A_DELETE
  else if (name =? "generate_id")%string then Some A_generate_id
  else if (name =? "is_deleted")%string then Some A_is_deleted
  else if (name =? "get_message_list")%string then Some A_get_message_list
  else if (name =? "get_message")%string then Some A_get_message
  else if (name =? "list_container")%string then Some A_list_container
  else if (name =? "still_pending")%string then Some A_still_pending
  else if (name =? "__init__")%string then Some A_init
  else if (name =? "__call__")%string then Some A_call
  else if existsb (String.eqb name) ["app"; "prefix"; "_uid_generator"]
  then Some A_field
  else if existsb (String.eqb name) object_attributes then Some A_object
  else None.

(** [handler(req, account, container, message)] followed by
    [resp(env, start_response)]: only a response can be called; the other
    results, and the attributes that do not take these four arguments,
    end in [TypeError]. *)
Definition invoke (fuel : nat) (handler : attribute) (req : Request)
           (account container : string) (message : option string)
  : M S Response :=
  let respond (r : option Response) : M S Response :=
    match r with Some resp => ret resp | None => raise TypeError end in
  match handler with
  | A_POST => r <- POST req account container message ;; respond r
  | A_GET => r <- GET fuel req account container message ;; respond r
  | A_DELETE => r <- DELETE req account container message ;; respond r
  | A_is_deleted =>
      _ <- is_deleted req account container (Py.str_opt message) ;;
      raise TypeError
  | A_list_container =>
      _ <- list_container req account container
             (match message with Some m => VStr m | None => VNone end) ;;
      raise TypeError
  | A_still_pending =>
      _ <- still_pending req account container message ;;
      raise TypeError
  | A_generate_id | A_get_message_list | A_get_message
  | A_init | A_call | A_field | A_object => raise TypeError
  end.

(** What [__call__] hands back to the WSGI server: [Responded r] is the
    call [r(env, start_response)] of the response [r], and [TheApp] the
    wrapped application.  What swob then serves for [r] (no body to a
    HEAD request, its own page for an error response without body) is not
    part of the model. *)
Inductive wsgi_result : Type :=
| Responded (r : Response)
| TheApp.   (* [return self.app]: the wrapped application itself *)

Definition __call__ (fuel : nat) (req : Request) : M S wsgi_result :=
  match split_path (script_name req ++ path_info req) 1 4 with
  | Some [version; account; queue; message] =>
      if (Py.str_opt version =? "queue")%string && Py.truthy_opt account then
        match getattr (method req) with
        | None =>
            ret (Responded (HTTPPreconditionFailed (Text "Bad HTTP method")))
        | Some handler =>
            let req := path_info_pop req in
            container <- lift (match queue with
                               | Some q => inr (prefix self ++ q)
                               | None => inl TypeError
                               end) ;;
            resp <- invoke fuel handler req (Py.str_opt account) container
                      message ;;
            ret (Responded resp)
        end
      else
        resp <- get_response self req ;;
        ret (Responded resp)
  | _ => ret TheApp
  end.

End Middleware.

(** ** The sub-requests, by name

    The requests the methods above build, for use in the statements. *)

(** The HEAD of [is_deleted] on the tombstone of [obj]. *)
Definition tombstone_probe (req : Request) (account container obj : string)
  : Request :=
  set_path_info (make_env req "HEAD" None)
                (obj_path account container obj ++ "/deleted").

(** The PUT of [DELETE] that writes the tombstone of [obj]. *)
Definition tombstone_write (req : Request) (account container obj : string)
  : Request :=
  set_path_info (set_method req "PUT")
                (obj_path account container obj ++ "/deleted").

(** The PUT of [POST] that writes the payload of [new_id]. *)
Definition payload_write (req : Request) (account container new_id : string)
  : Request :=
  set_method (set_path_info req (obj_path account container new_id ++ "/msg"))
             "PUT".

(** The GET of [get_message] on a pending marker. *)
Definition marker_read (req : Request) (account container pending : string)
  : Request :=
  set_path_info (make_env req "GET" None) (obj_path account container pending).

(** The GET of [list_container] for the first page. *)
Definition listing_read (req : Request) (account container : string)
  : Request :=
  set_path_info (make_env req "GET" (Some "format=json"))
                ("/" ++ account ++ "/" ++ container).

(** A request writes when the store may change on it. *)
Definition is_write (req : Request) : bool :=
  negb ((method req =? "GET") || (method req =? "HEAD"))%string.

(** The writes sent so far. *)
Definition writes {S} (w : World S) : list Request := filter is_write (sent w).

(** A computation that sends no write, however it ends. *)
Definition reads_only {S A} (c : M S A) : Prop :=
  forall w,
    match c w with
    | Ok _ w' | Raise _ w' => writes w' = writes w
    | OutOfFuel => True
    end.

(** A computation that never yields a value to return. *)
Definition never_returns {S A} (c : M S (option A)) : Prop :=
  forall w a w', c w = Ok a w' -> a = None.

(** ** A reference backing store

    Modelled from the spec: the backing object store, which is not part of
    this module (section 6: [put(key, body)], [get(key)], [head(key)],
    [delete(key)] and [list(container, marker)], an ordered page of keys
    where the empty page signals the end).  It serves as the concrete store
    on which the middleware is run. *)

Module RefStore.

Definition objects : Type := list (string * body).

Fixpoint lookup (k : string) (s : objects) : option body :=
  match s with
  | [] => None
  | (k', b) :: rest => if (k' =? k)%string then Some b else lookup k rest
  end.

Fixpoint put (k : string) (b : body) (s : objects) : objects :=
  match s with
  | [] => [(k, b)]
  | (k', b') :: rest =>
      if (k' =? k)%string then (k, b) :: rest else (k', b') :: put k b rest
  end.

Definition remove (k : string) (s : objects) : objects :=
  filter (fun kv => negb (fst kv =? k)%string) s.

Fixpoint insert_sorted (x : string) (l : list string) : list string :=
  match l with
  | [] => [x]
  | y :: l' => if String.leb x y then x :: l else y :: insert_sorted x l'
  end.

Definition sort (l : list string) : list string :=
  fold_right insert_sorted [] l.

(** The names of the objects of a container, in order. *)
Definition names (container_path : string) (s : objects) : list string :=
  let p := container_path ++ "/" in
  sort (map (fun kv => String.substring (String.length p)
                         (String.length (fst kv) - String.length p) (fst kv))
            (filter (fun kv => String.prefix p (fst kv)) s)).

Definition marker_of (query : string) : string :=
  let p := "format=json&marker=" in
  if String.prefix p query
  then String.substring (String.length p)
         (String.length query - String.length p) query
  else "".

(** One page of a listing: at most [limit] names after the marker. *)
Definition page (limit : nat) (container_path query : string) (s : objects)
  : list string :=
  firstn limit
    (filter (fun n => String.ltb (marker_of query) n) (names container_path s)).

Definition ok (b : body) : Response := mkResponse 200 b.

Definition serve (limit : nat) (req : Request) (s : objects)
  : Response * objects :=
  let k := path_info req in
  if (method req =? "PUT")%string then
    (mkResponse 201 (Text ""), put k (req_body req) s)
  else if (method req =? "HEAD")%string then
    (match lookup k s with
     | Some _ => ok (Text "")
     | None => mkResponse 404 (Text "")
     end, s)
  else if (method req =? "GET")%string then
    if String.prefix "format=json" (query_string req) then
      (match page limit k (query_string req) s with
       | [] => mkResponse 204 (Text "")
       | l => ok (Json (VList (map (fun n => VDict [("name", VStr n)]) l)))
       end, s)
    else
      (match lookup k s with
       | Some b => ok b
       | None => mkResponse 404 (Text "")
       end, s)
  else if (method req =? "DELETE")%string then
    (match lookup k s with
     | Some _ => mkResponse 204 (Text "")
     | None => mkResponse 404 (Text "")
     end, remove k s)
  else (mkResponse 405 (Text ""), s).

(** A store that answers [r] to the request [meth path] and behaves as
    [inner] otherwise: a fault, or an answer the reference store does not
    compute itself. *)
Definition answering {S} (meth path : string) (r : Response)
           (inner : Request -> S -> Response * S)
           (req : Request) (s : S) : Response * S :=
  if ((method req =? meth) && (path_info req =? path))%string
  then (r, s) else inner req s.

Definition queue (limit : nat) : MessageQueue objects :=
  {| app := serve limit; prefix := ".queue-" |}.

(** A world at rest: the instance tag [_id] drawn, the counter at 0, the
    clock reading [t] seconds at every call. *)
Definition world (s : objects) (tag : string) (t : Q) : World objects :=
  {| store := s; sent := []; _uid_generator := mkSortableUid tag 0;
     clock := fun _ => t; ticks := 0 |}.

Definition request (meth path : string) (b : body) : Request :=
  {| method := meth; script_name := ""; path_info := path;
     query_string := ""; req_body := b |}.

End RefStore.


(** ** Runs of the middleware

    [repeat_call n c]: the call [c] made [n] times in a row. *)
Fixpoint repeat_call {S A} (n : nat) (c : M S A) : M S (list A) :=
  match n with
  | O => ret []
  | Datatypes.S k => a <- c ;; l <- repeat_call k c ;; ret (a :: l)
  end.

(** Concrete queues on the reference store: the account [acct], the queue
    [q], whose container is [.queue-q], and messages named as the generator
    with tag [a3f] names them at 1000000000 seconds. *)
Module Scenario.

Definition account : string := "acct".
Definition container : string := ".queue-q".

Definition id_A : string := "e8d4a51000a3f001".
Definition id_B : string := "e8d4a51000a3f002".

Definition now : Q := (1000000000 # 1)%Q.

(** A request as a handler receives it, after [path_info_pop]. *)
Definition incoming (meth path : string) (b : body) : Request :=
  path_info_pop (RefStore.request meth ("/queue" ++ path) b).

Definition key (id sub : string) : string :=
  "/acct/.queue-q/" ++ id ++ "/" ++ sub.

(** One message, available. *)
Definition store_A : RefStore.objects := [(key id_A "msg", Text "A")].

(** The same message, acknowledged. *)
Definition store_A_deleted : RefStore.objects :=
  [(key id_A "msg", Text "A"); (key id_A "deleted", Text "")].

(** Two messages, both available. *)
Definition store_AB : RefStore.objects :=
  [(key id_A "msg", Text "A"); (key id_B "msg", Text "B")].

(** Two messages, the first under a lease that ends 60 seconds from
    [now]. *)
Definition lease_A : string := "e8d4a51001a3f003".

Definition store_A_leased_B : RefStore.objects :=
  [(key id_A "msg", Text "A");
   (key id_A lease_A, Json (VDict [("expires", VNum (1000000060 # 1)%Q)]));
   (key id_B "msg", Text "B")].

Definition world (s : RefStore.objects) : World RefStore.objects :=
  RefStore.world s "a3f" now.

(** The queue on a store that answers [r] to the request
    [meth path]. *)
Definition queue_answering (meth path : string) (r : Response)
  : MessageQueue RefStore.objects :=
  {| app := RefStore.answering meth path r (RefStore.serve 10);
     prefix := ".queue-" |}.

(** A store that fails on the HEAD of the tombstone of the first
    message. *)
Definition faulty_queue : MessageQueue RefStore.objects :=
  queue_answering "HEAD" (key id_A "deleted") (mkResponse 500 (Text "")).

(** A store that fails on the GET of the lease of the first message. *)
Definition unreadable_queue : MessageQueue RefStore.objects :=
  queue_answering "GET" (key id_A lease_A) (mkResponse 503 (Text "")).

(** A store that refuses the listing of the container. *)
Definition unlistable_queue : MessageQueue RefStore.objects :=
  queue_answering "GET" "/acct/.queue-q" (mkResponse 503 (Text "")).

(** The entry of a listing for the object [name]. *)
Definition entry (name : string) : value := VDict [("name", VStr name)].

(** A store that answers the listing of the account with two
    containers, one of them a queue. *)
Definition account_listing : value :=
  VList [VDict [("name", VStr ".queue-jobs")]; VDict [("name", VStr "photos")]].

Definition account_queue (listing : value) : MessageQueue RefStore.objects :=
  {| app := RefStore.answering "GET" "/acct" (RefStore.ok (Json listing))
              (RefStore.serve 10);
     prefix := ".queue-" |}.

End Scenario.

(** ** Construction (queue.py, lines 18-20, 28-31 and 192-198) *)

(** A Python dict of strings, as the configuration is: the first entry of
    a key is its value. *)
Module Conf.

Definition dict : Type := list (string * string).

Fixpoint get (d : dict) (k : string) : option string :=
  match d with
  | [] => None
  | (k', v) :: rest => if (k' =? k)%string then Some v else get rest k
  end.

(** [d.get(k, default)]. *)
Definition get_default (d : dict) (k default : string) : string :=
  match get d k with Some v => v | None => default end.

(** [c = d.copy(); c.update(e)]: the entries of [e] come first. *)
Definition copy_update (d e : dict) : dict := (e ++ d)%list.

End Conf.

(** [SortableUid.__init__], given the text of [uuid.uuid4().hex]. *)
Definition SortableUid__init__ (uuid_hex : string) : SortableUid :=
  {| _id := String.substring 0 ID_DIGITS uuid_hex; _counter := 0 |}.

(** [MessageQueue.__init__]: the fields [app] and [prefix]. *)
Definition MessageQueue__init__ {S} (app_ : Request -> S -> Response * S)
           (conf : Conf.dict) : MessageQueue S :=
  {| app := app_; prefix := Conf.get_default conf "prefix" ".queue-" |}.

(** [filter_factory(global_conf, **local_conf)]: the filter it returns,
    applied to [app]. *)
Definition filter_factory {S} (global_conf local_conf : Conf.dict)
           (app_ : Request -> S -> Response * S) : MessageQueue S :=
  MessageQueue__init__ app_ (Conf.copy_update global_conf local_conf).

(** ** Request constraints (swift/common/constraints.py) *)

Module Constraints.

(** The limits, which [constraints_conf_int] reads from the section
    [swift-constraints] of the configuration when it has them; they are
    integers of either sign. *)
Record limits : Type := mkLimits {
  MAX_FILE_SIZE : Z;
  MAX_META_NAME_LENGTH : Z;
  MAX_META_VALUE_LENGTH : Z;
  MAX_META_COUNT : Z;
  MAX_META_OVERALL_SIZE : Z;
  MAX_HEADER_SIZE : Z;
  MAX_OBJECT_NAME_LENGTH : Z
}.

(** The defaults (lines 37-50). *)
Definition defaults : limits :=
  {| MAX_FILE_SIZE := 5368709122;
     MAX_META_NAME_LENGTH := 128;
     MAX_META_VALUE_LENGTH := 256;
     MAX_META_COUNT := 90;
     MAX_META_OVERALL_SIZE := 4096;
     MAX_HEADER_SIZE := 8192;
     MAX_OBJECT_NAME_LENGTH := 1024 |}.

(** [c.lower()] on a byte: the letters A-Z. *)
Definition lower_char (c : ascii) : ascii :=
  let n := nat_of_ascii c in
  if ((65 <=? n) && (n <=? 90))%nat then ascii_of_nat (n + 32) else c.

Fixpoint lower (s : string) : string :=
  match s with
  | EmptyString => EmptyString
  | String c s' => String (lower_char c) (lower s')
  end.

Definition len (s : string) : Z := Z.of_nat (String.length s).

(** [s[n:]] for [0 <= n]. *)
Definition slice_from (s : string) (n : nat) : string :=
  String.substring n (String.length s - n) s.

(** [s[:n]]: a negative [n] counts from the end. *)
Definition slice_to (s : string) (n : Z) : string :=
  if n <? 0
  then String.substring 0 (String.length s - Z.to_nat (- n)) s
  else String.substring 0 (Z.to_nat n) s.

(** ['%d' % n]. *)
Definition dec (n : Z) : string := NilZero.string_of_int (Z.to_int n).

(** [HTTPBadRequest(body=..., content_type='text/plain')] and the other
    refusals. *)
Definition bad_request (msg : string) : Response := mkResponse 400 (Text msg).
Definition HTTPRequestEntityTooLarge (msg : string) : Response :=
  mkResponse 413 (Text msg).
Definition HTTPLengthRequired : Response := mkResponse 411 (Text "").

(** What the checks read of a request: [req.content_length] and the
    pairs [req.headers.iteritems()] gives, whose values are strings. *)
Record request : Type := mkRequestView {
  content_length : option Z;
  headers : list (string * string)
}.

(** The loop of [check_metadata] (lines 82-111), with its two counters. *)
Fixpoint check_metadata_loop (lim : limits) (prefix : string)
         (hs : list (string * string)) (meta_count meta_size : Z)
  : option Response :=
  match hs with
  | [] => None
  | (key, value) :: rest =>
      if len value >? MAX_HEADER_SIZE lim then
        Some (bad_request ("Header value too long: "
                           ++ slice_to key (MAX_META_NAME_LENGTH lim)))
      else if negb (PyStr.startswith (lower key) prefix) then
        check_metadata_loop lim prefix rest meta_count meta_size
      else
        let key := slice_from key (String.length prefix) in
        if negb (PyStr.truthy key) then
          Some (bad_request "Metadata name cannot be empty")
        else
          let meta_count := meta_count + 1 in
          let meta_size := meta_size + (len key + len value) in
          if len key >? MAX_META_NAME_LENGTH lim then
            Some (bad_request ("Metadata name too long: " ++ prefix ++ key))
          else if len value >? MAX_META_VALUE_LENGTH lim then
            Some (bad_request ("Metadata value longer than "
                               ++ dec (MAX_META_VALUE_LENGTH lim) ++ ": "
                               ++ prefix ++ key))
          else if meta_count >? MAX_META_COUNT lim then
            Some (bad_request ("Too many metadata items; max "
                               ++ dec (MAX_META_COUNT lim)))
          else if meta_size >? MAX_META_OVERALL_SIZE lim then
            Some (bad_request ("Total metadata too large; max "
                               ++ dec (MAX_META_OVERALL_SIZE lim)))
          else check_metadata_loop lim prefix rest meta_count meta_size
  end.

(** The prefix of the metadata headers of a target type. *)
Definition meta_prefix (target_type : string) : string :=
  "x-" ++ lower target_type ++ "-meta-".

(** [check_metadata(req, target_type)]: [None], or the refusal. *)
Definition check_metadata (lim : limits) (req : request)
           (target_type : string) : option Response :=
  check_metadata_loop lim (meta_prefix target_type) (headers req) 0 0.

(** Header names are looked up through the WSGI environment, where case
    does not count and [-] is [_]. *)
Definition normalize_char (c : ascii) : ascii :=
  let n := nat_of_ascii c in
  if ((97 <=? n) && (n <=? 122))%nat then ascii_of_nat (n - 32)
  else if Ascii.eqb c "-"%char then "_"%char else c.

Fixpoint normalize (s : string) : string :=
  match s with
  | EmptyString => EmptyString
  | String c s' => String (normalize_char c) (normalize s')
  end.

(** [req.headers.get(name)]. *)
Fixpoint header_get (hs : list (string * string)) (name : string)
  : option string :=
  match hs with
  | [] => None
  | (k, v) :: rest =>
      if (normalize k =? normalize name)%string then Some v
      else header_get rest name
  end.

(** [name in req.headers]. *)
Definition header_in (hs : list (string * string)) (name : string) : bool :=
  match header_get hs name with Some _ => true | None => false end.

Definition contains_nul (s : string) : bool :=
  existsb (Ascii.eqb zero) (PyStr.chars s).

(** [check_utf8] on a byte string; [decodes s] says that
    [s.decode('UTF-8')] succeeds, which is the codec's business. *)
Definition check_utf8 (decodes : string -> bool) (s : string) : bool :=
  if negb (PyStr.truthy s) then false
  else if decodes s then negb (contains_nul s)
  else false.

(** The truth value of [req.content_length]. *)
Definition truthy_length (n : option Z) : bool :=
  match n with Some k => negb (k =? 0) | None => false end.

(** [check_object_creation(req, object_name)]: [None], or the refusal. *)
Definition check_object_creation (lim : limits) (decodes : string -> bool)
           (req : request) (object_name : string) : option Response :=
  if truthy_length (content_length req)
     && match content_length req with
        | Some k => k >? MAX_FILE_SIZE lim
        | None => false
        end
  then Some (HTTPRequestEntityTooLarge "Your request is too large.")
  else if match content_length req with None => true | Some _ => false end
          && negb match header_get (headers req) "transfer-encoding" with
                  | Some v => (v =? "chunked")%string
                  | None => false
                  end
  then Some HTTPLengthRequired
  else if (header_in (headers req) "X-Copy-From"
           || header_in (headers req) "X-Copy-From-Account")
          && truthy_length (content_length req)
  then Some (bad_request "Copy requests require a zero byte body")
  else if len object_name >? MAX_OBJECT_NAME_LENGTH lim
  then Some (bad_request ("Object name length of " ++ dec (len object_name)
                          ++ " longer than "
                          ++ dec (MAX_OBJECT_NAME_LENGTH lim)))
  else
    match header_get (headers req) "Content-Type" with
    | None => Some (bad_request "No content type")
    | Some ct =>
        if negb (check_utf8 decodes ct)
        then Some (bad_request "Invalid Content-Type")
        else check_metadata lim req "object"
    end.

End Constraints.

(** What [check_metadata] accepts, said without the loop: the reading of
    the headers that the properties below compare the code with. *)
Module MetadataSpec.

Import Constraints.

(** A metadata header of the target: its name starts with the prefix,
    whatever the case. *)
Definition is_meta (prefix : string) (kv : string * string) : bool :=
  PyStr.startswith (lower (fst kv)) prefix.

Definition metas (prefix : string) (hs : list (string * string))
  : list (string * string) :=
  filter (is_meta prefix) hs.

(** The name of a metadata item: the header name after the prefix. *)
Definition meta_name (prefix : string) (kv : string * string) : string :=
  slice_from (fst kv) (String.length prefix).

Fixpoint total_size (prefix : string) (ms : list (string * string)) : Z :=
  match ms with
  | [] => 0
  | kv :: rest => (len (meta_name prefix kv) + len (snd kv))
                  + total_size prefix rest
  end.

Definition header_ok (lim : limits) (kv : string * string) : Prop :=
  len (snd kv) <= MAX_HEADER_SIZE lim.

Definition meta_ok (lim : limits) (prefix : string) (kv : string * string)
  : Prop :=
  meta_name prefix kv <> ""
  /\ len (meta_name prefix kv) <= MAX_META_NAME_LENGTH lim
  /\ len (snd kv) <= MAX_META_VALUE_LENGTH lim.

Definition acceptable (lim : limits) (prefix : string)
           (hs : list (string * string)) : Prop :=
  Forall (header_ok lim) hs
  /\ Forall (meta_ok lim prefix) (metas prefix hs)
  /\ Z.of_nat (List.length (metas prefix hs)) <= MAX_META_COUNT lim
  /\ total_size prefix (metas prefix hs) <= MAX_META_OVERALL_SIZE lim.

End MetadataSpec.

(** ** Runs of the generator and of the scan *)


(** [scan_reaches self each req account container n data w data' w']:
    the paging loop of [get_message_list], at page [data] in world [w],
    goes through [n] pages without a message to return and is then at
    page [data'] in world [w']. *)
Inductive scan_reaches {S} (self : MessageQueue S)
          (each : string -> option string -> M S (option Response))
          (req : Request) (account container : string)
  : nat -> value -> World S -> value -> World S -> Prop :=
| scan_here (data : value) (w : World S) :
    scan_reaches self each req account container 0 data w data w
| scan_next (n : nat) (data : value) (w : World S) (items : list value)
            (w1 : World S) (marker data1 : value) (w2 : World S)
            (data' : value) (w' : World S) :
    Py.truthy data = true ->
    Py.iter data = inr items ->
    get_message_list_page each items false None w = Ok None w1 ->
    match Py.last_item data with
    | inr it => Py.getitem it "name"
    | inl e => inl e
    end = inr marker ->
    list_container self req account container marker w1 = Ok data1 w2 ->
    scan_reaches self each req account container n data1 w2 data' w' ->
    scan_reaches self each req account container (Datatypes.S n) data w data' w'.

(** The listing request that follows a page whose last name is [m]. *)
Definition listing_after (req : Request) (account container m : string)
  : Request :=
  set_query_string (listing_read req account container)
                   ("format=json&marker=" ++ m).

(** Stores that fail at chosen requests, for the runs below. *)
Module Faults.

(** A store that answers [r] to the request [meth path] with the query
    string [query] and behaves as [inner] otherwise. *)
Definition answering_query {S} (meth path query : string) (r : Response)
           (inner : Request -> S -> Response * S)
           (req : Request) (s : S) : Response * S :=
  if ((method req =? meth) && (path_info req =? path)
      && (query_string req =? query))%string
  then (r, s) else inner req s.

(** A store that lists the first page of the queue, one name long, and
    refuses the page after the tombstone of the first message. *)
Definition later_page_unlistable_queue : MessageQueue RefStore.objects :=
  {| app := answering_query "GET" "/acct/.queue-q"
              ("format=json&marker=" ++ Scenario.id_A ++ "/deleted")
              (mkResponse 503 (Text "")) (RefStore.serve 1);
     prefix := ".queue-" |}.



End Faults.

(** * Properties *)

(** ** Strings *)

Module PyStrFacts.

Lemma ascii_compare_refl (c : ascii) : Ascii.compare c c = Eq.
Proof. unfold Ascii.compare. apply N.compare_refl. Qed.

Lemma compare_app (x s t : string) :
  String.compare (x ++ s) (x ++ t) = String.compare s t.
Proof.
  induction x as [|c x IH]; simpl; [reflexivity|].
  now rewrite ascii_compare_refl.
Qed.

Lemma append_assoc (a b c : string) : ((a ++ b) ++ c = a ++ (b ++ c))%string.
Proof. induction a; simpl; congruence. Qed.

Lemma length_append (a b : string) :
  String.length (a ++ b) = (String.length a + String.length b)%nat.
Proof. induction a; simpl; congruence. Qed.

Lemma fill_snoc (w : nat) (c : ascii) :
  (PyStr.fill w c ++ String c "")%string = String c (PyStr.fill w c).
Proof. induction w as [|w IH]; simpl; [reflexivity|now rewrite IH]. Qed.

Lemma append_empty_r (a : string) : (a ++ "")%string = a.
Proof. induction a; simpl; congruence. Qed.

Lemma obj_path_app (account container obj x : string) :
  (obj_path account container obj ++ x
   = "/" ++ account ++ "/" ++ container ++ "/" ++ obj ++ x)%string.
Proof.
  unfold obj_path. now rewrite !append_assoc.
Qed.

End PyStrFacts.

(** ** The identifier generator *)

Module HexFacts.

Import PyStrFacts.

Lemma digit_lt (a b : Z) :
  0 <= a -> a < b -> b < 16 ->
  Ascii.compare (Hex.digit a) (Hex.digit b) = Lt.
Proof.
  intros Ha Hab Hb.
  assert (Hc : forallb (fun x => forallb (fun y =>
             implb (x <? y)
               match Ascii.compare (Hex.digit x) (Hex.digit y) with
               | Lt => true | _ => false end)
             (map Z.of_nat (seq 0 16))) (map Z.of_nat (seq 0 16)) = true)
    by (vm_compute; reflexivity).
  rewrite forallb_forall in Hc.
  assert (Ia : In a (map Z.of_nat (seq 0 16))).
  { rewrite <- (Z2Nat.id a) by lia. apply in_map, in_seq. lia. }
  assert (Ib : In b (map Z.of_nat (seq 0 16))).
  { rewrite <- (Z2Nat.id b) by lia. apply in_map, in_seq. lia. }
  specialize (Hc a Ia). rewrite forallb_forall in Hc.
  specialize (Hc b Ib).
  apply Z.ltb_lt in Hab. rewrite Hab in Hc. simpl in Hc.
  destruct (Ascii.compare (Hex.digit a) (Hex.digit b)); congruence.
Qed.

(** Fixed-width digits order as the numbers do, whatever follows them. *)
Lemma fixed_lt (w : nat) :
  forall a b sa sb, 0 <= a -> a < b -> b < 16 ^ Z.of_nat w ->
    String.compare (Hex.fixed w a ++ sa) (Hex.fixed w b ++ sb) = Lt.
Proof.
  induction w as [|w IH]; intros a b sa sb Ha Hab Hb.
  - simpl in Hb. lia.
  - cbn [Hex.fixed]. rewrite !append_assoc.
    assert (Hpow : 16 ^ Z.of_nat (S w) = 16 * 16 ^ Z.of_nat w).
    { rewrite Nat2Z.inj_succ, Z.pow_succ_r by lia. reflexivity. }
    assert (Hq : a / 16 <= b / 16) by (apply Z.div_le_mono; lia).
    destruct (Z.eq_dec (a / 16) (b / 16)) as [E|NE].
    + rewrite E, compare_app. simpl.
      rewrite digit_lt; [reflexivity| | |].
      * apply Z.mod_pos_bound; lia.
      * pose proof (Z.div_mod a 16 ltac:(lia)).
        pose proof (Z.div_mod b 16 ltac:(lia)). lia.
      * apply Z.mod_pos_bound; lia.
    + apply IH.
      * apply Z.div_pos; lia.
      * lia.
      * apply Z.div_lt_upper_bound; lia.
Qed.

Lemma fixed_zero (w : nat) : Hex.fixed w 0 = PyStr.fill w "0"%char.
Proof.
  induction w as [|w IH]; [reflexivity|].
  cbn [Hex.fixed]. change (0 / 16) with 0. rewrite IH.
  change (Hex.digit (0 mod 16)) with "0"%char.
  apply fill_snoc.
Qed.

Lemma length_fixed (w : nat) (n : Z) : String.length (Hex.fixed w n) = w.
Proof.
  revert n; induction w as [|w IH]; intros n; [reflexivity|].
  cbn [Hex.fixed]. rewrite length_append, IH. simpl. lia.
Qed.

(** With enough fuel, the digits are those of the fixed-width rendering
    without its leading zeros. *)
Lemma digits_fuel_fixed (fuel : nat) :
  forall n w, 0 <= n -> n < 16 ^ Z.of_nat fuel -> n < 16 ^ Z.of_nat w ->
    (0 < w)%nat ->
    (String.length (Hex.digits_fuel fuel n) <= w)%nat /\
    PyStr.rjust (Hex.digits_fuel fuel n) w "0"%char = Hex.fixed w n.
Proof.
  induction fuel as [|fuel IH]; intros n w Hn Hf Hw Hpos.
  - simpl in Hf. assert (n = 0) by lia. subst n.
    rewrite fixed_zero. unfold PyStr.rjust. simpl.
    rewrite Nat.sub_0_r, append_empty_r. split; [lia|reflexivity].
  - destruct w as [|w]; [lia|].
    cbn [Hex.digits_fuel Hex.fixed].
    destruct (n <? 16) eqn:E.
    + apply Z.ltb_lt in E.
      rewrite (Z.div_small n 16), (Z.mod_small n 16) by lia.
      rewrite fixed_zero. unfold PyStr.rjust. simpl.
      rewrite Nat.sub_0_r. split; [lia|reflexivity].
    + apply Z.ltb_ge in E.
      assert (P : forall k, 16 ^ Z.of_nat (S k) = 16 * 16 ^ Z.of_nat k).
      { intros k. rewrite Nat2Z.inj_succ, Z.pow_succ_r by lia. reflexivity. }
      assert (Hw' : n / 16 < 16 ^ Z.of_nat w).
      { apply Z.div_lt_upper_bound; [lia|]. rewrite <- P. exact Hw. }
      assert (1 <= n / 16) by (apply Z.div_le_lower_bound; lia).
      assert (Hwpos : (0 < w)%nat).
      { destruct w; [simpl in Hw'; lia|lia]. }
      destruct (IH (n / 16) w) as [L R]; try assumption.
      * lia.
      * apply Z.div_lt_upper_bound; [lia|]. rewrite <- P. exact Hf.
      * rewrite length_append. simpl. split; [lia|].
        rewrite <- R. unfold PyStr.rjust.
        rewrite append_assoc, length_append.
        cbn [String.length].
        replace (S w - (String.length (Hex.digits_fuel fuel (n / 16)) + 1))%nat
          with (w - String.length (Hex.digits_fuel fuel (n / 16)))%nat by lia.
        reflexivity.
Qed.

Lemma format_fixed (w : nat) (n : Z) :
  (0 < w)%nat -> 0 <= n -> n < 16 ^ Z.of_nat w ->
  Hex.format w n = Hex.fixed w n.
Proof.
  intros Hpos Hn Hw. unfold Hex.format, Hex.of_nonneg.
  destruct (n <? 0) eqn:E; [apply Z.ltb_lt in E; lia|].
  apply digits_fuel_fixed; try assumption.
  destruct (Z.eq_dec n 0) as [->|NZ]; [simpl; lia|].
  pose proof (Z.log2_spec n ltac:(lia)) as [_ Hl].
  pose proof (Z.log2_nonneg n).
  rewrite Nat2Z.inj_succ, Z2Nat.id by lia.
  eapply Z.lt_le_trans; [exact Hl|].
  apply Z.pow_le_mono_l. lia.
Qed.

End HexFacts.

Module UidFacts.

Import SortableUid_.

Lemma get_id (t : Q) (self : SortableUid) : _id (snd (get t self)) = _id self.
Proof. reflexivity. Qed.

(** Every identifier of a run carries the timestamp of its own reading
    and the tag of the instance. *)
Lemma issue_nth (ts : list Q) :
  forall self i t a,
    nth_error ts i = Some t -> nth_error (issue ts self) i = Some a ->
    exists c, a = UID_FORMAT (Float64.mul t 1000) (_id self) c.
Proof.
  induction ts as [|t0 ts IH]; intros self i t a Ht Ha.
  - destruct i; discriminate.
  - destruct i as [|i]; simpl in Ht, Ha.
    + inversion Ht; inversion Ha; subst. eexists; reflexivity.
    + apply (IH _ _ _ _ Ht) in Ha. exact Ha.
Qed.

End UidFacts.

(** ** More on strings *)

Module PyStrMore.

Lemma compare_refl (s : string) : String.compare s s = Eq.
Proof.
  induction s as [|c s IH]; simpl; [reflexivity|].
  now rewrite PyStrFacts.ascii_compare_refl.
Qed.

Lemma append_inj_l (p s t : string) : (p ++ s = p ++ t)%string -> s = t.
Proof. induction p as [|c p IH]; simpl; intros H; [exact H|]. inversion H; auto. Qed.

(** Equal strings with tails of equal length have equal tails. *)
Lemma append_tail_eq (a b x y : string) :
  (a ++ x = b ++ y)%string -> String.length x = String.length y -> x = y.
Proof.
  revert b. induction a as [|c a IH]; intros b H L.
  - destruct b as [|d b]; [exact H|].
    simpl in H. apply (f_equal String.length) in H.
    simpl in H. rewrite PyStrFacts.length_append in H. lia.
  - destruct b as [|d b].
    + simpl in H. apply (f_equal String.length) in H.
      simpl in H. rewrite PyStrFacts.length_append in H. lia.
    + simpl in H. inversion H. eapply IH; eassumption.
Qed.

Lemma append_inj_r (a b x : string) : (a ++ x = b ++ x)%string -> a = b.
Proof.
  revert b. induction a as [|c a IH]; intros b H.
  - destruct b as [|d b]; [reflexivity|].
    apply (f_equal String.length) in H. simpl in H.
    rewrite PyStrFacts.length_append in H. lia.
  - destruct b as [|d b].
    + apply (f_equal String.length) in H. simpl in H.
      rewrite PyStrFacts.length_append in H. lia.
    + simpl in H. inversion H. f_equal. now apply IH.
Qed.


Lemma of_chars_app (l m : list ascii) :
  PyStr.of_chars (l ++ m)%list = (PyStr.of_chars l ++ PyStr.of_chars m)%string.
Proof. unfold PyStr.of_chars. induction l; simpl; congruence. Qed.








End PyStrMore.

(** ** More on the identifier generator *)

Module UidMore.

Import SortableUid_.

Lemma COUNTER_LIMIT_eq : COUNTER_LIMIT = 4096.
Proof. reflexivity. Qed.

Lemma fixed_inj (w : nat) (a b : Z) :
  0 <= a < 16 ^ Z.of_nat w -> 0 <= b < 16 ^ Z.of_nat w ->
  Hex.fixed w a = Hex.fixed w b -> a = b.
Proof.
  intros Ha Hb E.
  destruct (Z.lt_trichotomy a b) as [L|[L|L]]; [|exact L|].
  - pose proof (HexFacts.fixed_lt w a b "" "" ltac:(lia) L ltac:(lia)) as C.
    rewrite E, PyStrMore.compare_refl in C. discriminate C.
  - pose proof (HexFacts.fixed_lt w b a "" "" ltac:(lia) L ltac:(lia)) as C.
    rewrite E, PyStrMore.compare_refl in C. discriminate C.
Qed.

(** The counter field of an identifier is three digits. *)
Lemma counter_field (c : Z) :
  0 <= c < COUNTER_LIMIT ->
  Hex.format COUNTER_DIGITS c = Hex.fixed 3 c.
Proof.
  rewrite COUNTER_LIMIT_eq. intros H.
  apply HexFacts.format_fixed; unfold COUNTER_DIGITS; simpl; lia.
Qed.

(** Identifiers of one tag with different counters are different,
    whatever their timestamps. *)
Lemma UID_FORMAT_counter (t1 t2 : Q) (id : string) (c1 c2 : Z) :
  0 <= c1 < COUNTER_LIMIT -> 0 <= c2 < COUNTER_LIMIT ->
  UID_FORMAT t1 id c1 = UID_FORMAT t2 id c2 -> c1 = c2.
Proof.
  intros H1 H2 E. unfold UID_FORMAT in E.
  rewrite (counter_field c1 H1), (counter_field c2 H2) in E.
  rewrite <- !PyStrFacts.append_assoc in E.
  apply PyStrMore.append_tail_eq in E;
    [|now rewrite !HexFacts.length_fixed].
  rewrite COUNTER_LIMIT_eq in H1, H2.
  apply (fixed_inj 3); simpl; try lia. exact E.
Qed.

(** The [i]-th identifier of a run: its reading and its counter. *)
Lemma issue_nth_counter (ts : list Q) :
  forall self i a,
    nth_error (issue ts self) i = Some a ->
    exists t,
      nth_error ts i = Some t
      /\ a = UID_FORMAT (Float64.mul t 1000) (_id self)
               ((_counter self + Z.of_nat i + 1) mod COUNTER_LIMIT).
Proof.
  induction ts as [|t0 ts IH]; intros self i a Ha.
  - destruct i; discriminate.
  - destruct i as [|i]; simpl in Ha.
    + inversion Ha; subst. exists t0. split; [reflexivity|].
      cbn [_counter _id]. now rewrite Z.add_0_r.
    + apply IH in Ha as (t & Ht & ->). exists t. split; [exact Ht|].
      cbn [_counter _id]. f_equal.
      rewrite Nat2Z.inj_succ.
      replace ((_counter self + 1) mod COUNTER_LIMIT + Z.of_nat i + 1)
        with ((_counter self + 1) mod COUNTER_LIMIT + (Z.of_nat i + 1)) by lia.
      rewrite Z.add_mod_idemp_l by (rewrite COUNTER_LIMIT_eq; lia).
      f_equal. lia.
Qed.

(** With enough fuel, a number of at least [w] digits is rendered with at
    least [w] digits. *)
Lemma digits_fuel_long (fuel : nat) :
  forall n w, n < 16 ^ Z.of_nat fuel -> (0 < w)%nat ->
    16 ^ Z.of_nat (w - 1) <= n ->
    (w <= String.length (Hex.digits_fuel fuel n))%nat.
Proof.
  induction fuel as [|fuel IH]; intros n w Hf Hw Hn.
  - simpl in Hf. pose proof (Z.pow_pos_nonneg 16 (Z.of_nat (w - 1))). lia.
  - cbn [Hex.digits_fuel]. destruct (n <? 16) eqn:E.
    + apply Z.ltb_lt in E. simpl.
      destruct w as [|[|w]]; [lia|lia|].
      exfalso. replace (S (S w) - 1)%nat with (S w) in Hn by lia.
      rewrite Nat2Z.inj_succ, Z.pow_succ_r in Hn by lia.
      pose proof (Z.pow_pos_nonneg 16 (Z.of_nat w)). lia.
    + apply Z.ltb_ge in E. rewrite PyStrFacts.length_append. simpl.
      destruct w as [|[|w]]; [lia|lia|].
      replace (S (S w) - 1)%nat with (S w) in Hn by lia.
      rewrite Nat2Z.inj_succ, Z.pow_succ_r in Hn by lia.
      rewrite Nat2Z.inj_succ, Z.pow_succ_r in Hf by lia.
      assert (S w <= String.length (Hex.digits_fuel fuel (n / 16)))%nat.
      { apply IH.
        - apply Z.div_lt_upper_bound; lia.
        - lia.
        - replace (S w - 1)%nat with w by lia.
          apply Z.div_le_lower_bound; lia. }
      lia.
Qed.

(** A timestamp of [w] digits, [w] at least the width asked for, is
    rendered with its [w] digits: the width is a minimum. *)
Lemma format_wide (width w : nat) (n : Z) :
  (0 < w)%nat -> (width <= w)%nat ->
  16 ^ Z.of_nat (w - 1) <= n -> n < 16 ^ Z.of_nat w ->
  Hex.format width n = Hex.fixed w n.
Proof.
  intros Hw Hle Hlo Hhi. unfold Hex.format, Hex.of_nonneg.
  pose proof (Z.pow_pos_nonneg 16 (Z.of_nat (w - 1)) ltac:(lia) ltac:(lia)).
  destruct (n <? 0) eqn:E; [apply Z.ltb_lt in E; lia|].
  assert (Hfuel : n < 16 ^ Z.of_nat (S (Z.to_nat (Z.log2 n)))).
  { pose proof (Z.log2_spec n ltac:(lia)) as [_ Hl].
    pose proof (Z.log2_nonneg n).
    rewrite Nat2Z.inj_succ, Z2Nat.id by lia.
    eapply Z.lt_le_trans; [exact Hl|]. apply Z.pow_le_mono_l. lia. }
  destruct (HexFacts.digits_fuel_fixed _ n w ltac:(lia) Hfuel Hhi Hw) as [L R].
  pose proof (digits_fuel_long _ n w Hfuel Hw Hlo) as G.
  rewrite <- R. unfold PyStr.rjust.
  replace (width - _)%nat with 0%nat by lia.
  replace (w - _)%nat with 0%nat by lia.
  reflexivity.
Qed.




End UidMore.

(** C7, as the code has it.  Two identifiers issued by the same
    [SortableUid] instance, the second after the first, such that the
    millisecond timestamp of the second is greater than that of the first
    (the clock did not step back between them) and both timestamps fit in
    the ten hexadecimal digits of [TIME_DIGITS]: the identifier issued
    earlier is lexically smaller than the one issued later. *)
Theorem uid_lexical_order_is_issuance_order
        (self : SortableUid) (ts : list Q) (i j : nat) (ti tj : Q)
        (a b : string) :
  (i < j)%nat ->
  nth_error ts i = Some ti -> nth_error ts j = Some tj ->
  nth_error (SortableUid_.issue ts self) i = Some a ->
  nth_error (SortableUid_.issue ts self) j = Some b ->
  SortableUid_.millis ti < SortableUid_.millis tj ->
  0 <= SortableUid_.millis ti ->
  SortableUid_.millis tj < 16 ^ Z.of_nat TIME_DIGITS ->
  PyStr.lt a b.
Proof.
  intros _ Hti Htj Ha Hb Hlt H0 Hmax.
  destruct (UidFacts.issue_nth _ _ _ _ _ Hti Ha) as [ca ->].
  destruct (UidFacts.issue_nth _ _ _ _ _ Htj Hb) as [cb ->].
  unfold PyStr.lt, UID_FORMAT.
  change (py_int (Float64.mul ti 1000)) with (SortableUid_.millis ti).
  change (py_int (Float64.mul tj 1000)) with (SortableUid_.millis tj).
  rewrite (HexFacts.format_fixed TIME_DIGITS (SortableUid_.millis ti))
    by (unfold TIME_DIGITS in *; lia).
  rewrite (HexFacts.format_fixed TIME_DIGITS (SortableUid_.millis tj))
    by (unfold TIME_DIGITS in *; lia).
  apply HexFacts.fixed_lt; lia.
Qed.

(** Two identifiers of one instance half a second apart, across the
    wrap-around of the counter. *)
Lemma uid_lexical_order_witness :
  PyStr.lt "e8d4a51000a3ffff" "e8d4a511f4a3f000".
Proof.
  apply (uid_lexical_order_is_issuance_order
           {| _id := "a3f"; _counter := 4094 |}
           [(1000000000 # 1)%Q; (2000000001 # 2)%Q] 0 1
           (1000000000 # 1)%Q (2000000001 # 2)%Q).
  - lia.
  - reflexivity.
  - reflexivity.
  - vm_compute; reflexivity.
  - vm_compute; reflexivity.
  - vm_compute; reflexivity.
  - vm_compute; discriminate.
  - vm_compute; reflexivity.
Defined.

(** C7 as stated fails: when the clock steps back between two calls (it
    reads 2 seconds, then 1), the two identifiers have distinct
    millisecond timestamps that fit in ten digits, and the one issued
    earlier is lexically the larger. *)
Lemma clock_stepping_back_reverses_order :
  let self := {| _id := "a3f"; _counter := 0 |} in
  SortableUid_.issue [(2 # 1)%Q; (1 # 1)%Q] self
  = ["00000007d0a3f001"; "00000003e8a3f002"]
  /\ SortableUid_.millis (2 # 1)%Q = 2000
  /\ SortableUid_.millis (1 # 1)%Q = 1000
  /\ 2000 < 16 ^ Z.of_nat TIME_DIGITS
  /\ ~ PyStr.lt "00000007d0a3f001" "00000003e8a3f002"
  /\ PyStr.lt "00000003e8a3f002" "00000007d0a3f001".
Proof.
  cbv zeta.
  split; [vm_compute; reflexivity|].
  split; [vm_compute; reflexivity|].
  split; [vm_compute; reflexivity|].
  split; [vm_compute; reflexivity|].
  split; [vm_compute; discriminate|vm_compute; reflexivity].
Qed.

(** ** The handlers *)

Section HandlerFacts.

Context {S : Type}.
Variable self : MessageQueue S.

Lemma status0_404 (r : Response) :
  status_int r = 404%nat -> status0_is_2 r = false.
Proof. intros H. unfold status0_is_2, status. now rewrite H. Qed.

Lemma is_deleted_true req account container obj (w : World S) r s' :
  app self (tombstone_probe req account container obj) (store w) = (r, s') ->
  status0_is_2 r = true ->
  is_deleted self req account container obj w
  = Ok true (sending w (tombstone_probe req account container obj) s').
Proof.
  intros Happ H2. unfold is_deleted, bind, get_response.
  fold (tombstone_probe req account container obj).
  now rewrite Happ, H2.
Qed.

Lemma is_deleted_false req account container obj (w : World S) r s' :
  app self (tombstone_probe req account container obj) (store w) = (r, s') ->
  status_int r = 404%nat ->
  is_deleted self req account container obj w
  = Ok false (sending w (tombstone_probe req account container obj) s').
Proof.
  intros Happ H4. unfold is_deleted, bind, get_response.
  fold (tombstone_probe req account container obj).
  now rewrite Happ, (status0_404 _ H4), H4.
Qed.

Lemma is_deleted_raise req account container obj (w : World S) r s' :
  app self (tombstone_probe req account container obj) (store w) = (r, s') ->
  status0_is_2 r = false -> status_int r <> 404%nat ->
  is_deleted self req account container obj w
  = Raise TypeError
          (sending w (tombstone_probe req account container obj) s').
Proof.
  intros Happ H2 H4. unfold is_deleted, bind, get_response.
  fold (tombstone_probe req account container obj).
  rewrite Happ, H2. apply Nat.eqb_neq in H4. now rewrite H4.
Qed.

(** Get-message-by-id on a message whose tombstone is there. *)
Lemma GET_by_id_deleted fuel req account container id (w : World S) r s' :
  PyStr.truthy id = true ->
  app self (tombstone_probe req account container id) (store w) = (r, s') ->
  status0_is_2 r = true ->
  GET self fuel req account container (Some id) w
  = Ok (Some HTTPNoContent)
       (sending w (tombstone_probe req account container id) s').
Proof.
  intros Hid Happ H2. unfold GET. cbn [Py.truthy_opt Py.str_opt].
  rewrite Hid. unfold bind.
  now rewrite (is_deleted_true _ _ _ _ _ _ _ Happ H2).
Qed.

(** The loop body of claim-next on such a message: [continue]. *)
Lemma GET_each_deleted req account container id pending (w : World S) r s' :
  app self (tombstone_probe req account container id) (store w) = (r, s') ->
  status0_is_2 r = true ->
  GET_each self req account container id pending w
  = Ok None (sending w (tombstone_probe req account container id) s').
Proof.
  intros Happ H2. unfold GET_each, bind.
  now rewrite (is_deleted_true _ _ _ _ _ _ _ Happ H2).
Qed.

End HandlerFacts.

Section AcknowledgeFacts.

Context {S : Type}.
Variable self : MessageQueue S.

(** Acknowledging a message whose tombstone is there: Not Found, and
    nothing but the HEAD is sent. *)
Lemma DELETE_deleted req account container id (w : World S) r s' :
  PyStr.truthy id = true ->
  app self (tombstone_probe req account container id) (store w) = (r, s') ->
  status0_is_2 r = true ->
  DELETE self req account container (Some id) w
  = Ok (Some HTTPNotFound)
       (sending w (tombstone_probe req account container id) s').
Proof.
  intros Hid Happ H2. unfold DELETE. cbn [Py.truthy_opt Py.str_opt].
  rewrite Hid. unfold bind.
  now rewrite (is_deleted_true _ _ _ _ _ _ _ _ Happ H2).
Qed.

Lemma filter_write_probe (l : list Request) req account container id :
  filter is_write (l ++ [tombstone_probe req account container id])%list
  = filter is_write l.
Proof. rewrite filter_app. simpl. apply app_nil_r. Qed.

(** Any number of acknowledges in a row of a message whose tombstone is
    there, on a store that HEAD leaves as it is. *)
Lemma DELETE_deleted_repeat req account container id r (s : S) :
  PyStr.truthy id = true ->
  app self (tombstone_probe req account container id) s = (r, s) ->
  status0_is_2 r = true ->
  forall n (w : World S), store w = s ->
    exists w',
      repeat_call n (DELETE self req account container (Some id)) w
      = Ok (repeat (Some HTTPNotFound) n) w'
      /\ store w' = s
      /\ filter is_write (sent w') = filter is_write (sent w).
Proof.
  intros Hid Happ H2. induction n as [|n IH]; intros w Hw.
  - exists w. repeat split; reflexivity || assumption.
  - cbn [repeat_call repeat]. unfold bind at 1.
    rewrite (DELETE_deleted req account container id w r s Hid)
      by (rewrite ?Hw; assumption).
    destruct (IH (sending w (tombstone_probe req account container id) s)
                 eq_refl) as (w' & Hrun & Hs & Hl).
    exists w'. unfold bind at 1. rewrite Hrun. repeat split; try assumption.
    rewrite Hl. cbn [sending sent]. apply filter_write_probe.
Qed.

End AcknowledgeFacts.

(** ** The scan of claim-next *)

Section ScanFacts.

Context {S : Type}.
Variable self : MessageQueue S.

(** The scan at an entry [<id>/msg] of a message not seen deleted: the
    loop body runs on the candidate. *)
Lemma page_at_msg {R} (each : string -> option string -> M S (option R))
      kvs name rest pending (w : World S) :
  Py.assoc "name" kvs = Some (VStr name) ->
  PyStr.endswith name "/deleted" = false ->
  PyStr.endswith name "/msg" = true ->
  get_message_list_page each (VDict kvs :: rest) false pending w
  = (r <- each (PyStr.rstrip name "/msg") pending ;;
     match r with
     | Some x => ret (Some x)
     | None => get_message_list_page each rest false None
     end) w.
Proof.
  intros Hn Hd Hm. cbn [get_message_list_page Py.getitem].
  rewrite Hn. cbn [Py.as_str lift]. unfold bind at 1. unfold ret at 1.
  now rewrite Hd, Hm.
Qed.

(** The loop body when the read of the pending marker fails:
    [continue]. *)
Lemma GET_each_marker_unreadable req account container msg pend
      (w : World S) r0 s0 r1 s1 :
  PyStr.truthy pend = true ->
  app self (tombstone_probe req account container msg) (store w) = (r0, s0) ->
  status_int r0 = 404%nat ->
  app self (marker_read req account container pend) s0 = (r1, s1) ->
  status0_is_2 r1 = false ->
  GET_each self req account container msg (Some pend) w
  = Ok None
       (sending (sending w (tombstone_probe req account container msg) s0)
                (marker_read req account container pend) s1).
Proof.
  intros Hp H0 H404 H1 H2. unfold GET_each. unfold bind at 1.
  rewrite (is_deleted_false _ _ _ _ _ _ _ _ H0 H404).
  unfold still_pending. unfold bind at 1. unfold ret at 1.
  cbn [Py.truthy]. unfold bind at 1.
  unfold get_message. cbn [Py.truthy_opt Py.str_opt]. rewrite Hp.
  fold (marker_read req account container pend).
  unfold bind at 1. unfold get_response. cbn [sending store].
  rewrite H1, H2. cbn [negb]. unfold ret. now rewrite H2.
Qed.

(** The loop body when the HEAD on the tombstone answers neither 2xx
    nor 404: [raise resp] ends it in [TypeError]. *)
Lemma GET_each_probe_error req account container msg pending
      (w : World S) r0 s0 :
  app self (tombstone_probe req account container msg) (store w) = (r0, s0) ->
  status0_is_2 r0 = false -> status_int r0 <> 404%nat ->
  GET_each self req account container msg pending w
  = Raise TypeError
          (sending w (tombstone_probe req account container msg) s0).
Proof.
  intros H0 H2 H404. unfold GET_each. unfold bind at 1.
  now rewrite (is_deleted_raise _ _ _ _ _ _ _ _ H0 H2 H404).
Qed.

(** A listing that the store refuses. *)
Lemma list_container_error req account container (w : World S) r s' :
  app self (listing_read req account container) (store w) = (r, s') ->
  status_int r <> 204%nat ->
  (status_int r < 200 \/ 300 <= status_int r)%nat ->
  list_container self req account container VNone w
  = Raise (Exception_ "Error querying object server")
          (sending w (listing_read req account container) s').
Proof.
  intros H0 H204 Hout. unfold list_container.
  fold (listing_read req account container).
  cbn [Py.truthy]. unfold bind at 1. unfold ret at 1.
  unfold bind at 1. unfold get_response. rewrite H0.
  apply Nat.eqb_neq in H204. rewrite H204.
  assert (E : ((status_int r <? 200) || (300 <=? status_int r))%nat = true).
  { apply orb_true_iff. destruct Hout as [H|H];
      [left; now apply Nat.ltb_lt | right; now apply Nat.leb_le]. }
  now rewrite E.
Qed.

End ScanFacts.

(** ** Claim-next never claims

    Whatever the store holds, claim-next sends no write (no pending marker
    is ever put) and answers no message: its result is No Content or an
    exception. *)

Section ClaimNextFacts.

Context {S : Type}.
Variable self : MessageQueue S.

Lemma reads_only_ret {A} (a : A) : reads_only (S:=S) (ret a).
Proof. intros w. reflexivity. Qed.

Lemma reads_only_raise {A} (e : exn) : reads_only (S:=S) (A:=A) (raise e).
Proof. intros w. reflexivity. Qed.

Lemma reads_only_lift {A} (r : exn + A) : reads_only (S:=S) (lift r).
Proof. destruct r; intros w; reflexivity. Qed.

Lemma reads_only_time : reads_only (S:=S) time_time.
Proof. intros w. reflexivity. Qed.

Lemma reads_only_bind {A B} (c : M S A) (k : A -> M S B) :
  reads_only c -> (forall a, reads_only (k a)) -> reads_only (bind c k).
Proof.
  intros Hc Hk w. unfold bind. specialize (Hc w).
  destruct (c w) as [a w1|e w1|]; [|assumption|exact I].
  specialize (Hk a w1). destruct (k a w1); congruence.
Qed.

Lemma reads_only_get_response (req : Request) :
  is_write req = false -> reads_only (get_response self req).
Proof.
  intros Hr w. unfold get_response.
  destruct (app self req (store w)) as [r s'].
  unfold writes, sending. cbn [sent]. rewrite filter_app. cbn [filter].
  rewrite Hr. apply app_nil_r.
Qed.

Ltac reads :=
  repeat first
    [ apply reads_only_ret
    | apply reads_only_raise
    | apply reads_only_lift
    | apply reads_only_time
    | apply reads_only_get_response; reflexivity
    | apply reads_only_bind; [|intros ?]
    | match goal with
      | |- reads_only (if ?b then _ else _) => destruct b
      | |- reads_only (match ?x with _ => _ end) => destruct x
      end ].

Lemma reads_only_is_deleted req account container obj :
  reads_only (is_deleted self req account container obj).
Proof. unfold is_deleted. reads. Qed.

Lemma reads_only_listing (new_req : Request) :
  is_write new_req = false ->
  reads_only
    (resp <- get_response self new_req ;;
     if (status_int resp =? 204)%nat then ret (VList [])
     else if ((status_int resp <? 200) || (300 <=? status_int resp))%nat
     then raise (Exception_ "Error querying object server")
     else data <- lift (Py.json_loads (resp_body resp)) ;; ret data).
Proof.
  intros Hr. apply reads_only_bind.
  - now apply reads_only_get_response.
  - intros resp. reads.
Qed.

Lemma reads_only_list_container req account container marker :
  reads_only (list_container self req account container marker).
Proof.
  intros w. unfold list_container. unfold bind at 1.
  destruct (Py.truthy marker).
  - destruct (Py.concat_str "&marker=" marker) as [e|m]; cbn [lift].
    + reflexivity.
    + unfold bind at 1. unfold ret at 1. unfold ret at 1.
      match goal with
      | |- context [get_response self ?rq] =>
          exact (reads_only_listing rq eq_refl w)
      end.
  - unfold ret at 1.
    match goal with
    | |- context [get_response self ?rq] =>
        exact (reads_only_listing rq eq_refl w)
    end.
Qed.

Lemma reads_only_get_message req account container msg pending :
  reads_only (get_message self req account container msg pending).
Proof. unfold get_message, increment. reads. Qed.

Lemma reads_only_GET_each req account container msg pending :
  reads_only (GET_each self req account container msg pending).
Proof.
  unfold GET_each, still_pending.
  apply reads_only_bind; [apply reads_only_is_deleted|intros d].
  destruct d; [reads|].
  apply reads_only_bind; [reads|intros p].
  destruct (Py.truthy p); [reads|].
  apply reads_only_bind; [apply reads_only_get_message|intros resp].
  reads.
Qed.

Lemma reads_only_page {R} (each : string -> option string -> M S (option R)) :
  (forall m p, reads_only (each m p)) ->
  forall items deleted pending,
    reads_only (get_message_list_page each items deleted pending).
Proof.
  intros Heach. induction items as [|item rest IH]; intros deleted pending.
  - apply reads_only_ret.
  - cbn [get_message_list_page].
    apply reads_only_bind; [apply reads_only_lift|intros name].
    destruct (PyStr.endswith name "/deleted"); [apply IH|].
    destruct (PyStr.endswith name "/msg").
    + destruct (negb deleted); [|apply IH].
      apply reads_only_bind; [apply Heach|intros r].
      destruct r; [apply reads_only_ret|apply IH].
    + destruct (PyStr.contains_char "/" name && negb deleted); apply IH.
Qed.

Lemma reads_only_pages {R} (each : string -> option string -> M S (option R))
      req account container :
  (forall m p, reads_only (each m p)) ->
  forall fuel data,
    reads_only (get_message_list_pages self fuel each req account container data).
Proof.
  intros Heach. induction fuel as [|fuel IH]; intros data.
  - cbn [get_message_list_pages].
    destruct (Py.truthy data); [intros w; exact I|apply reads_only_ret].
  - cbn [get_message_list_pages].
    destruct (Py.truthy data); [|apply reads_only_ret].
    apply reads_only_bind; [apply reads_only_lift|intros items].
    apply reads_only_bind; [now apply reads_only_page|intros r].
    destruct r; [apply reads_only_ret|].
    apply reads_only_bind; [apply reads_only_lift|intros marker].
    apply reads_only_bind; [apply reads_only_list_container|intros data'].
    apply IH.
Qed.

(** Claim-next sends no write. *)
Lemma reads_only_claim_next fuel req account container :
  PyStr.truthy container = true ->
  reads_only (GET self fuel req account container None).
Proof.
  intros Hc. unfold GET. cbn [Py.truthy_opt]. rewrite Hc.
  apply reads_only_bind.
  - unfold get_message_list.
    apply reads_only_bind; [apply reads_only_list_container|intros data].
    apply reads_only_pages. intros m p. apply reads_only_GET_each.
  - intros r. destruct r; apply reads_only_ret.
Qed.

Lemma bind_Ok {A B} (c : M S A) (k : A -> M S B) w b w2 :
  bind c k w = Ok b w2 -> exists a w1, c w = Ok a w1 /\ k a w1 = Ok b w2.
Proof.
  unfold bind. destruct (c w) as [a w1|e w1|]; try discriminate.
  intros H. now exists a, w1.
Qed.

(** What [get_message] returns, when it returns a response, is a
    response of the store that is not 2xx. *)
Lemma get_message_Some req account container msg pending w r w' :
  get_message self req account container msg pending w = Ok (Some r) w' ->
  status0_is_2 r = false.
Proof.
  unfold get_message, increment.
  destruct (Py.truthy_opt pending).
  - intros H. apply bind_Ok in H as (resp & w1 & _ & H).
    destruct (status0_is_2 resp) eqn:E; cbn [negb] in H.
    + apply bind_Ok in H as (data & w2 & _ & H).
      apply bind_Ok in H as (now & w3 & _ & H).
      apply bind_Ok in H as (expires & w4 & _ & H).
      destruct (Py.float_lt now expires); [discriminate H|].
      apply bind_Ok in H as (o & w5 & H & _). discriminate H.
    + inversion H; subst. exact E.
  - intros H. apply bind_Ok in H as (o & w5 & H & _). discriminate H.
Qed.

Lemma never_returns_GET_each req account container msg pending :
  never_returns (GET_each self req account container msg pending).
Proof.
  intros w a w' H. unfold GET_each, still_pending in H.
  apply bind_Ok in H as (d & w1 & _ & H).
  destruct d; [now inversion H|].
  apply bind_Ok in H as (p & w2 & Hp & H).
  inversion Hp; subst. cbn [Py.truthy] in H.
  apply bind_Ok in H as (resp & w3 & Hg & H).
  destruct resp as [r|]; [|discriminate H].
  apply get_message_Some in Hg. rewrite Hg in H. now inversion H.
Qed.

Lemma never_returns_page {R} (each : string -> option string -> M S (option R)) :
  (forall m p, never_returns (each m p)) ->
  forall items deleted pending,
    never_returns (get_message_list_page each items deleted pending).
Proof.
  intros Heach. induction items as [|item rest IH];
    intros deleted pending w a w' H.
  - now inversion H.
  - cbn [get_message_list_page] in H.
    apply bind_Ok in H as (name & w1 & _ & H).
    destruct (PyStr.endswith name "/deleted"); [exact (IH _ _ _ _ _ H)|].
    destruct (PyStr.endswith name "/msg").
    + destruct (negb deleted); [|exact (IH _ _ _ _ _ H)].
      apply bind_Ok in H as (r & w2 & Hr & H).
      apply Heach in Hr. subst r. exact (IH _ _ _ _ _ H).
    + destruct (PyStr.contains_char "/" name && negb deleted);
        exact (IH _ _ _ _ _ H).
Qed.

Lemma never_returns_pages {R} (each : string -> option string -> M S (option R))
      req account container :
  (forall m p, never_returns (each m p)) ->
  forall fuel data,
    never_returns
      (get_message_list_pages self fuel each req account container data).
Proof.
  intros Heach. induction fuel as [|fuel IH]; intros data w a w' H;
    cbn [get_message_list_pages] in H;
    (destruct (Py.truthy data); [|now inversion H]).
  - discriminate H.
  - apply bind_Ok in H as (items & w1 & _ & H).
    apply bind_Ok in H as (r & w2 & Hr & H).
    apply (never_returns_page each Heach) in Hr. subst r.
    apply bind_Ok in H as (marker & w3 & _ & H).
    apply bind_Ok in H as (data' & w4 & _ & H).
    exact (IH _ _ _ _ H).
Qed.

(** When claim-next answers, it answers No Content. *)
Lemma claim_next_answers_no_content fuel req account container w r w' :
  PyStr.truthy container = true ->
  GET self fuel req account container None w = Ok r w' ->
  r = Some HTTPNoContent.
Proof.
  intros Hc. unfold GET. cbn [Py.truthy_opt]. rewrite Hc. intros H.
  apply bind_Ok in H as (x & w1 & Hx & H).
  unfold get_message_list in Hx.
  apply bind_Ok in Hx as (data & w2 & _ & Hx).
  apply (never_returns_pages _ req account container
           (never_returns_GET_each req account container)) in Hx.
  subst x. now inversion H.
Qed.

End ClaimNextFacts.

(** The listing loop of list-queues never collects a queue: an element
    that passes [o.startswith(prefix)] is a string, and [o['name']] then
    raises. *)
Lemma GET_queues_never_collects {S} (self : MessageQueue S) (objs : list value) :
  forall queues result,
    GET_queues self objs queues = inr result -> result = queues.
Proof.
  induction objs as [|o rest IH]; intros queues result H.
  - now inversion H.
  - cbn [GET_queues] in H. destruct o; cbn [Py.as_str] in H; try discriminate H.
    destruct (PyStr.startswith s (prefix self)).
    + cbn [Py.getitem] in H. discriminate H.
    + exact (IH _ _ H).
Qed.

(** X9. Claim-next, whatever the store holds, sends no write to the store
    (only GET and HEAD requests), and when it answers, it answers No
    Content. *)
Lemma claim_next_never_claims
      {S} (self : MessageQueue S) (fuel : nat) (req : Request)
      (account container : string) (w : World S) :
  PyStr.truthy container = true ->
  match GET self fuel req account container None w with
  | Ok resp w' => resp = Some HTTPNoContent /\ writes w' = writes w
  | Raise _ w' => writes w' = writes w
  | OutOfFuel => True
  end.
Proof.
  intros Hc.
  pose proof (reads_only_claim_next self fuel req account container Hc w) as Hr.
  destruct (GET self fuel req account container None w) as [resp w'|e w'|] eqn:E;
    try assumption.
  split; [|assumption].
  exact (claim_next_answers_no_content self fuel req account container w resp w'
           Hc E).
Qed.

(** ** The middleware at work on the reference store

    Enqueue then acknowledge, through [__call__]: the message is stored
    under the identifier the generator issues, acknowledged once, and a
    second acknowledge answers Not Found. *)
Example enqueue_then_acknowledge :
  let q := RefStore.queue 10 in
  let post := RefStore.request "POST" "/queue/acct/q/message" (Text "A") in
  let del :=
    RefStore.request "DELETE" "/queue/acct/q/e8d4a51000a3f001" (Text "") in
  exists w1 w2 w3,
    __call__ q 3 post (Scenario.world [])
    = Ok (Responded
            (HTTPCreated
               (Json (VDict [("message", VDict [("id", VStr Scenario.id_A)])]))))
         w1
    /\ store w1 = Scenario.store_A
    /\ __call__ q 3 del w1 = Ok (Responded (mkResponse 201 (Text ""))) w2
    /\ store w2 = Scenario.store_A_deleted
    /\ __call__ q 3 del w2 = Ok (Responded HTTPNotFound) w3
    /\ store w3 = Scenario.store_A_deleted.
Proof.
  cbv zeta. do 3 eexists.
  split; [vm_compute; reflexivity|].
  split; [reflexivity|].
  split; [vm_compute; reflexivity|].
  split; [reflexivity|].
  split; [vm_compute; reflexivity|reflexivity].
Qed.

(** ** The claims of the specification *)

(** C1 (the code falls short of it).  Claim-next on a queue that holds one
    available message: after the listing and the HEAD on the tombstone,
    [get_message] looks up [self.increment], which the class does not
    define, and the call ends in [AttributeError].  No pending marker is
    written and the payload [<id>/msg] is not fetched. *)
Theorem claim_next_on_available_message_raises :
  let req := Scenario.incoming "GET" "/acct/q" (Text "") in
  let w := Scenario.world Scenario.store_A in
  GET (RefStore.queue 10) 3 req "acct" ".queue-q" None w
  = Raise AttributeError
          (sending (sending w (listing_read req "acct" ".queue-q")
                            Scenario.store_A)
                   (tombstone_probe req "acct" ".queue-q" Scenario.id_A)
                   Scenario.store_A).
Proof. cbv zeta. vm_compute. reflexivity. Qed.

(** C2 (the code falls short of it).  Claim-next on a queue whose first
    message is under a lease that ends in the future and whose second
    message is available: [still_pending] answers [None], so the first
    message is not skipped there; [get_message] reads the lease, finds it
    unexpired and returns [None]; the loop then reads [None.status] and
    the call ends in [AttributeError], after the listing, the HEAD and the
    GET of the lease.  The second message is never looked at. *)
Theorem claim_next_on_leased_message_raises :
  let req := Scenario.incoming "GET" "/acct/q" (Text "") in
  let w := Scenario.world Scenario.store_A_leased_B in
  let lease := (Scenario.id_A ++ "/" ++ Scenario.lease_A)%string in
  RefStore.names "/acct/.queue-q" Scenario.store_A_leased_B
  = [lease; Scenario.id_A ++ "/msg"; Scenario.id_B ++ "/msg"]%string
  /\ Py.float_lt Scenario.now (VNum (1000000060 # 1)%Q) = true
  /\ GET (RefStore.queue 10) 3 req "acct" ".queue-q" None w
     = Raise AttributeError
             (ticking
                (sending
                   (sending
                      (sending w (listing_read req "acct" ".queue-q")
                               Scenario.store_A_leased_B)
                      (tombstone_probe req "acct" ".queue-q" Scenario.id_A)
                      Scenario.store_A_leased_B)
                   (marker_read req "acct" ".queue-q" lease)
                   Scenario.store_A_leased_B)).
Proof. cbv zeta. repeat split; vm_compute; reflexivity. Qed.

(** C3. Once the tombstone [<id>/deleted] of a message is in the store
    (the HEAD on it answers 2xx), no call returns the message:
    get-message-by-id answers No Content instead of the message; the scan
    of claim-next passes over the message as soon as it has seen the
    tombstone, whatever pending marker the listing showed for it
    ([get_message] is not reached, and the only request sent is that
    HEAD); and claim-next as a whole, when it answers, answers No
    Content. *)
Theorem tombstone_hides_message
        {S} (self : MessageQueue S) (fuel : nat) (req : Request)
        (account container id : string) (w : World S)
        (r : Response) (s' : S) :
  PyStr.truthy id = true ->
  PyStr.truthy container = true ->
  app self (tombstone_probe req account container id) (store w) = (r, s') ->
  status0_is_2 r = true ->
  GET self fuel req account container (Some id) w
  = Ok (Some HTTPNoContent)
       (sending w (tombstone_probe req account container id) s')
  /\ (forall pending,
         GET_each self req account container id pending w
         = Ok None (sending w (tombstone_probe req account container id) s'))
  /\ (forall resp w',
         GET self fuel req account container None w = Ok resp w' ->
         resp = Some HTTPNoContent).
Proof.
  intros Hid Hc Happ H2. split; [|split].
  - now apply GET_by_id_deleted with (r := r).
  - intros pending. now apply GET_each_deleted with (r := r).
  - intros resp w'. now apply claim_next_answers_no_content.
Qed.

Lemma tombstone_hides_message_witness :
  let req := Scenario.incoming "GET" "/acct/q/e8d4a51000a3f001" (Text "") in
  let w := Scenario.world Scenario.store_A_deleted in
  let w' := sending w (tombstone_probe req "acct" ".queue-q" Scenario.id_A)
                    Scenario.store_A_deleted in
  GET (RefStore.queue 2) 3 req "acct" ".queue-q" (Some Scenario.id_A) w
  = Ok (Some HTTPNoContent) w'
  /\ (forall pending,
         GET_each (RefStore.queue 2) req "acct" ".queue-q" Scenario.id_A pending w
         = Ok None w')
  /\ (forall resp w'',
         GET (RefStore.queue 2) 3 req "acct" ".queue-q" None w = Ok resp w'' ->
         resp = Some HTTPNoContent).
Proof.
  intros req w w'.
  apply (tombstone_hides_message (RefStore.queue 2) 3 req "acct" ".queue-q"
           Scenario.id_A w (RefStore.ok (Text "")) Scenario.store_A_deleted).
  - reflexivity.
  - reflexivity.
  - vm_compute; reflexivity.
  - reflexivity.
Defined.

(** C4. Acknowledge is idempotent.  On a message not yet deleted (the HEAD
    on the tombstone answers 404) the call sends a PUT on [<id>/deleted]
    and answers what the store answers.  Once the tombstone is there (the
    HEAD answers 2xx and leaves the store as it is), every further
    acknowledge answers Not Found, sends no write to the store, and leaves
    the store in the same state. *)
Theorem DELETE_is_idempotent
        {S} (self : MessageQueue S) (req req' : Request)
        (account container id : string) (w : World S)
        (r0 r1 r2 : Response) (s1 s2 : S) :
  PyStr.truthy id = true ->
  app self (tombstone_probe req account container id) (store w) = (r0, s1) ->
  status_int r0 = 404%nat ->
  app self (tombstone_write req account container id) s1 = (r1, s2) ->
  app self (tombstone_probe req' account container id) s2 = (r2, s2) ->
  status0_is_2 r2 = true ->
  let w1 := sending (sending w (tombstone_probe req account container id) s1)
                    (tombstone_write req account container id) s2 in
  method (tombstone_write req account container id) = "PUT"
  /\ path_info (tombstone_write req account container id)
     = "/" ++ account ++ "/" ++ container ++ "/" ++ id ++ "/deleted"
  /\ DELETE self req account container (Some id) w = Ok (Some r1) w1
  /\ forall n, exists w',
       repeat_call n (DELETE self req' account container (Some id)) w1
       = Ok (repeat (Some HTTPNotFound) n) w'
       /\ store w' = s2
       /\ filter is_write (sent w') = filter is_write (sent w1).
Proof.
  intros Hid H0 H404 H1 Hr2 H2 w1.
  split; [reflexivity|].
  split; [apply PyStrFacts.obj_path_app|]. split.
  - unfold DELETE. cbn [Py.truthy_opt Py.str_opt]. rewrite Hid. unfold bind.
    rewrite (is_deleted_false _ _ _ _ _ _ _ _ H0 H404).
    unfold get_response. cbn [sending store].
    fold (tombstone_write req account container id).
    now rewrite H1.
  - intros n.
    apply (DELETE_deleted_repeat self req' account container id r2 s2 Hid Hr2 H2).
    reflexivity.
Qed.

Lemma DELETE_is_idempotent_witness :
  let req := Scenario.incoming "DELETE" "/acct/q/e8d4a51000a3f001" (Text "") in
  let w := Scenario.world Scenario.store_A in
  let w1 := sending (sending w (tombstone_probe req "acct" ".queue-q" Scenario.id_A)
                             Scenario.store_A)
                    (tombstone_write req "acct" ".queue-q" Scenario.id_A)
                    Scenario.store_A_deleted in
  DELETE (RefStore.queue 2) req "acct" ".queue-q" (Some Scenario.id_A) w
  = Ok (Some (mkResponse 201 (Text ""))) w1
  /\ forall n, exists w',
       repeat_call n (DELETE (RefStore.queue 2) req "acct" ".queue-q"
                             (Some Scenario.id_A)) w1
       = Ok (repeat (Some HTTPNotFound) n) w'
       /\ store w' = Scenario.store_A_deleted
       /\ filter is_write (sent w') = filter is_write (sent w1).
Proof.
  intros req w w1.
  apply (DELETE_is_idempotent (RefStore.queue 2) req req "acct" ".queue-q"
           Scenario.id_A w (mkResponse 404 (Text "")) (mkResponse 201 (Text ""))
           (RefStore.ok (Text "")) Scenario.store_A Scenario.store_A_deleted).
  - reflexivity.
  - vm_compute; reflexivity.
  - reflexivity.
  - vm_compute; reflexivity.
  - vm_compute; reflexivity.
  - reflexivity.
Defined.

(** C5, as the code has it.  Get-message-by-id on a deleted message (the
    HEAD on its tombstone answers 2xx) answers No Content, status 204. *)
Theorem GET_by_id_deleted_is_no_content
        {S} (self : MessageQueue S) (fuel : nat) (req : Request)
        (account container id : string) (w : World S)
        (r : Response) (s' : S) :
  PyStr.truthy id = true ->
  app self (tombstone_probe req account container id) (store w) = (r, s') ->
  status0_is_2 r = true ->
  exists resp w',
    GET self fuel req account container (Some id) w = Ok (Some resp) w'
    /\ resp = HTTPNoContent /\ status_int resp = 204%nat.
Proof.
  intros Hid Happ H2.
  exists HTTPNoContent,
         (sending w (tombstone_probe req account container id) s').
  split; [|split; reflexivity].
  exact (GET_by_id_deleted self fuel req account container id w r s'
           Hid Happ H2).
Qed.

Lemma GET_by_id_deleted_is_no_content_witness :
  exists resp w',
    GET (RefStore.queue 2) 1
        (Scenario.incoming "GET" "/acct/q/e8d4a51000a3f001" (Text ""))
        "acct" ".queue-q" (Some Scenario.id_A)
        (Scenario.world Scenario.store_A_deleted)
    = Ok (Some resp) w'
    /\ resp = HTTPNoContent /\ status_int resp = 204%nat.
Proof.
  apply (GET_by_id_deleted_is_no_content (RefStore.queue 2) 1
           (Scenario.incoming "GET" "/acct/q/e8d4a51000a3f001" (Text ""))
           "acct" ".queue-q" Scenario.id_A
           (Scenario.world Scenario.store_A_deleted)
           (RefStore.ok (Text "")) Scenario.store_A_deleted).
  - reflexivity.
  - vm_compute; reflexivity.
  - reflexivity.
Defined.

(** C5 as stated fails: on a message whose tombstone is in the store,
    get-message-by-id does not answer Not Found (404); it answers No
    Content (204). *)
Lemma GET_by_id_deleted_is_not_not_found :
  let req := Scenario.incoming "GET" "/acct/q/e8d4a51000a3f001" (Text "") in
  let w := Scenario.world Scenario.store_A_deleted in
  RefStore.lookup (Scenario.key Scenario.id_A "deleted") Scenario.store_A_deleted
  = Some (Text "")
  /\ GET (RefStore.queue 2) 1 req "acct" ".queue-q" (Some Scenario.id_A) w
     = Ok (Some HTTPNoContent)
          (sending w (tombstone_probe req "acct" ".queue-q" Scenario.id_A)
                   Scenario.store_A_deleted)
  /\ HTTPNoContent <> HTTPNotFound
  /\ forall w',
       GET (RefStore.queue 2) 1 req "acct" ".queue-q" (Some Scenario.id_A) w
       <> Ok (Some HTTPNotFound) w'.
Proof.
  cbv zeta.
  assert (E : GET (RefStore.queue 2) 1
                (Scenario.incoming "GET" "/acct/q/e8d4a51000a3f001" (Text ""))
                "acct" ".queue-q" (Some Scenario.id_A)
                (Scenario.world Scenario.store_A_deleted)
              = Ok (Some HTTPNoContent)
                   (sending (Scenario.world Scenario.store_A_deleted)
                      (tombstone_probe
                         (Scenario.incoming "GET" "/acct/q/e8d4a51000a3f001"
                            (Text ""))
                         "acct" ".queue-q" Scenario.id_A)
                      Scenario.store_A_deleted))
    by (vm_compute; reflexivity).
  split; [reflexivity|]. split; [exact E|]. split; [discriminate|].
  intros w' H. rewrite E in H. discriminate H.
Qed.




Section PagingAbort.

Context {S : Type}.
Variable self : MessageQueue S.

(** A listing after a marker that the store refuses. *)
Lemma list_container_error_after req account container m (w : World S) r s' :
  PyStr.truthy m = true ->
  app self (listing_after req account container m) (store w) = (r, s') ->
  status_int r <> 204%nat ->
  (status_int r < 200 \/ 300 <= status_int r)%nat ->
  list_container self req account container (VStr m) w
  = Raise (Exception_ "Error querying object server")
          (sending w (listing_after req account container m) s').
Proof.
  intros Hm H0 H204 Hout. unfold list_container.
  fold (listing_read req account container).
  cbn [Py.truthy]. rewrite Hm. cbn [Py.concat_str lift].
  unfold bind at 1. unfold bind at 1. unfold ret at 1. unfold ret at 1.
  unfold bind at 1. unfold get_response.
  change (query_string (listing_read req account container)) with "format=json".
  change ("format=json" ++ "&marker=" ++ m)%string
    with ("format=json&marker=" ++ m)%string.
  fold (listing_after req account container m). rewrite H0.
  apply Nat.eqb_neq in H204. rewrite H204.
  assert (E : ((status_int r <? 200) || (300 <=? status_int r))%nat = true).
  { apply orb_true_iff. destruct Hout as [H|H];
      [left; now apply Nat.ltb_lt | right; now apply Nat.leb_le]. }
  now rewrite E.
Qed.

(** The paging loop, after the pages it has gone through. *)
Lemma pages_after each req account container n data (w : World S) data' w' :
  scan_reaches self each req account container n data w data' w' ->
  forall fuel,
    get_message_list_pages self (n + fuel) each req account container data w
    = get_message_list_pages self fuel each req account container data' w'.
Proof.
  induction 1 as [|n data w items w1 marker data1 w2 data' w'
                    Ht Hi Hp Hm Hl _ IH]; intros fuel.
  - reflexivity.
  - cbn [Nat.add get_message_list_pages]. rewrite Ht, Hi. cbn [lift].
    unfold bind at 1. unfold ret at 1. unfold bind at 1. rewrite Hp.
    rewrite Hm. cbn [lift]. unfold bind at 1. unfold ret at 1.
    unfold bind at 1. rewrite Hl. apply IH.
Qed.

End PagingAbort.

(** C8, as the code has it.  In the scan of claim-next, when the GET on
    the pending marker of a candidate fails (a status that is not 2xx),
    the candidate is skipped and the scan goes on with the entries after
    it.  A listing of the container that fails (a status outside 2xx)
    aborts claim-next with the error [Error querying object server]: the
    first listing, and the listing of any later page, after the pages the
    scan has gone through. *)
Theorem scan_error_policy
        {S} (self : MessageQueue S) (req : Request)
        (account container : string) :
  (forall kvs name pend rest (w : World S) r0 s0 r1 s1,
      Py.assoc "name" kvs = Some (VStr name) ->
      PyStr.endswith name "/deleted" = false ->
      PyStr.endswith name "/msg" = true ->
      PyStr.truthy pend = true ->
      app self (tombstone_probe req account container (PyStr.rstrip name "/msg"))
          (store w) = (r0, s0) ->
      status_int r0 = 404%nat ->
      app self (marker_read req account container pend) s0 = (r1, s1) ->
      status0_is_2 r1 = false ->
      get_message_list_page (GET_each self req account container)
        (VDict kvs :: rest) false (Some pend) w
      = get_message_list_page (GET_each self req account container)
          rest false None
          (sending
             (sending w (tombstone_probe req account container
                                         (PyStr.rstrip name "/msg")) s0)
             (marker_read req account container pend) s1))
  /\ (forall fuel (w : World S) r s',
         PyStr.truthy container = true ->
         app self (listing_read req account container) (store w) = (r, s') ->
         status_int r <> 204%nat ->
         (status_int r < 200 \/ 300 <= status_int r)%nat ->
         GET self fuel req account container None w
         = Raise (Exception_ "Error querying object server")
                 (sending w (listing_read req account container) s'))
  /\ (forall n fuel (w0 : World S) data w dataN wN items wl m r s',
         PyStr.truthy container = true ->
         list_container self req account container VNone w0 = Ok data w ->
         scan_reaches self (GET_each self req account container)
           req account container n data w dataN wN ->
         Py.truthy dataN = true ->
         Py.iter dataN = inr items ->
         get_message_list_page (GET_each self req account container)
           items false None wN = Ok None wl ->
         match Py.last_item dataN with
         | inr it => Py.getitem it "name"
         | inl e => inl e
         end = inr (VStr m) ->
         PyStr.truthy m = true ->
         app self (listing_after req account container m) (store wl) = (r, s') ->
         status_int r <> 204%nat ->
         (status_int r < 200 \/ 300 <= status_int r)%nat ->
         GET self (n + Datatypes.S fuel) req account container None w0
         = Raise (Exception_ "Error querying object server")
                 (sending wl (listing_after req account container m) s')).
Proof.
  split; [|split].
  - intros kvs name pend rest w r0 s0 r1 s1 Hn Hd Hm Hp H0 H404 H1 H2.
    rewrite (page_at_msg _ kvs name rest (Some pend) w Hn Hd Hm).
    unfold bind at 1.
    now rewrite (GET_each_marker_unreadable self req account container _ pend
                   w r0 s0 r1 s1 Hp H0 H404 H1 H2).
  - intros fuel w r s' Hc H0 H204 Hout. unfold GET.
    cbn [Py.truthy_opt]. rewrite Hc. unfold bind at 1.
    unfold get_message_list. unfold bind at 1.
    now rewrite (list_container_error self req account container w r s'
                   H0 H204 Hout).
  - intros n fuel w0 data w dataN wN items wl m r s'
           Hc Hfirst Hreach Ht Hi Hp Hm Hmt Happ H204 Hout.
    unfold GET. cbn [Py.truthy_opt]. rewrite Hc. unfold bind at 1.
    unfold get_message_list. unfold bind at 1. rewrite Hfirst.
    rewrite (pages_after self _ req account container n data w dataN wN Hreach).
    cbn [get_message_list_pages]. rewrite Ht, Hi. cbn [lift].
    unfold bind at 1. unfold ret at 1. unfold bind at 1. rewrite Hp.
    rewrite Hm. cbn [lift]. unfold bind at 1. unfold ret at 1.
    unfold bind at 1.
    now rewrite (list_container_error_after self req account container m wl
                   r s' Hmt Happ H204 Hout).
Qed.

Lemma scan_error_policy_witness :
  let req := Scenario.incoming "GET" "/acct/q" (Text "") in
  let a_msg := (Scenario.id_A ++ "/msg")%string in
  let a_deleted := (Scenario.id_A ++ "/deleted")%string in
  let a_lease := (Scenario.id_A ++ "/" ++ Scenario.lease_A)%string in
  let b_msg := (Scenario.id_B ++ "/msg")%string in
  let probe := tombstone_probe req "acct" ".queue-q" Scenario.id_A in
  (let w := Scenario.world Scenario.store_A_leased_B in
   get_message_list_page (GET_each Scenario.unreadable_queue req "acct" ".queue-q")
     [Scenario.entry a_msg; Scenario.entry b_msg] false (Some a_lease) w
   = get_message_list_page
       (GET_each Scenario.unreadable_queue req "acct" ".queue-q")
       [Scenario.entry b_msg] false None
       (sending (sending w probe Scenario.store_A_leased_B)
                (marker_read req "acct" ".queue-q" a_lease)
                Scenario.store_A_leased_B))
  /\ (let w := Scenario.world Scenario.store_AB in
      GET Scenario.unlistable_queue 3 req "acct" ".queue-q" None w
      = Raise (Exception_ "Error querying object server")
              (sending w (listing_read req "acct" ".queue-q") Scenario.store_AB))
  /\ (let w := Scenario.world Scenario.store_A_deleted in
      GET Faults.later_page_unlistable_queue (0 + 3) req "acct" ".queue-q" None w
      = Raise (Exception_ "Error querying object server")
              (sending
                 (sending w (listing_read req "acct" ".queue-q")
                          Scenario.store_A_deleted)
                 (listing_after req "acct" ".queue-q" a_deleted)
                 Scenario.store_A_deleted)).
Proof.
  intros req a_msg a_deleted a_lease b_msg probe.
  split; [|split].
  - intros w.
    apply (proj1 (scan_error_policy Scenario.unreadable_queue req
                    "acct" ".queue-q")
             [("name", VStr a_msg)] a_msg a_lease [Scenario.entry b_msg] w
             (mkResponse 404 (Text "")) Scenario.store_A_leased_B
             (mkResponse 503 (Text "")) Scenario.store_A_leased_B);
      vm_compute; reflexivity.
  - intros w.
    apply (proj1 (proj2 (scan_error_policy Scenario.unlistable_queue req
                           "acct" ".queue-q"))
             3%nat w (mkResponse 503 (Text "")) Scenario.store_AB);
      try (vm_compute; reflexivity).
    + vm_compute; discriminate.
    + right. vm_compute. lia.
  - intros w.
    set (w1 := sending w (listing_read req "acct" ".queue-q")
                       Scenario.store_A_deleted).
    apply (proj2 (proj2 (scan_error_policy Faults.later_page_unlistable_queue
                           req "acct" ".queue-q"))
             0%nat 2%nat w (VList [Scenario.entry a_deleted]) w1
             (VList [Scenario.entry a_deleted]) w1
             [Scenario.entry a_deleted] w1 a_deleted
             (mkResponse 503 (Text "")) Scenario.store_A_deleted).
    + reflexivity.
    + vm_compute; reflexivity.
    + apply scan_here.
    + reflexivity.
    + reflexivity.
    + vm_compute; reflexivity.
    + reflexivity.
    + reflexivity.
    + vm_compute; reflexivity.
    + vm_compute; discriminate.
    + right. vm_compute. lia.
Defined.

(** C8 as stated fails: with two available messages in the queue and a
    store that answers 500 to the HEAD on the tombstone of the first,
    claim-next does not skip the first message and go on to the second;
    the scan ends there in an exception, after the listing and that
    HEAD. *)
Lemma probe_error_aborts_claim_next :
  let req := Scenario.incoming "GET" "/acct/q" (Text "") in
  let w := Scenario.world Scenario.store_AB in
  RefStore.names "/acct/.queue-q" Scenario.store_AB
  = [Scenario.id_A ++ "/msg"; Scenario.id_B ++ "/msg"]%string
  /\ GET Scenario.faulty_queue 3 req "acct" ".queue-q" None w
     = Raise TypeError
             (sending (sending w (listing_read req "acct" ".queue-q")
                               Scenario.store_AB)
                      (tombstone_probe req "acct" ".queue-q" Scenario.id_A)
                      Scenario.store_AB).
Proof.
  cbv zeta. split; vm_compute; reflexivity.
Qed.

(** C9 (the code falls short of it).  List-queues on an account whose
    listing shows the containers [.queue-jobs] and [photos]: the loop
    calls [startswith] on the first entry, a dict, and the call ends in
    [AttributeError]; were the entries plain names, [o['name']] on the
    first would end it in [TypeError].  Through [__call__] the request
    does not reach the handler: [self.prefix + queue] with no queue raises
    [TypeError].  And [lstrip] removes characters, not the prefix: the
    queue [queue1] would be listed as [1]. *)
Theorem list_queues_raises :
  let req := Scenario.incoming "GET" "/acct" (Text "") in
  let w := Scenario.world [] in
  let asked := sending w (set_query_string req "format=json") [] in
  GET (Scenario.account_queue Scenario.account_listing) 3 req "acct" "" None w
  = Raise AttributeError asked
  /\ GET (Scenario.account_queue (VList [VStr ".queue-jobs"; VStr "photos"]))
         3 req "acct" "" None w
     = Raise TypeError asked
  /\ __call__ (Scenario.account_queue Scenario.account_listing) 3
              (RefStore.request "GET" "/queue/acct" (Text "")) w
     = Raise TypeError w
  /\ PyStr.lstrip ".queue-queue1" ".queue-" = "1".
Proof. cbv zeta. repeat split; vm_compute; reflexivity. Qed.

(** Dispatch on a name that the object does not have.  A request in the
    queue namespace (first segment [queue], an account that is not empty)
    whose method is not the name of any attribute of the middleware
    object is handed the response [HTTPPreconditionFailed(body='Bad HTTP
    method')], and nothing is sent to the store.  PUT and HEAD are such
    names. *)
Lemma unknown_attribute_is_rejected
      {S} (self : MessageQueue S) (fuel : nat) (req : Request) (w : World S)
      (account queue message : option string) :
  split_path (script_name req ++ path_info req) 1 4
  = Some [Some "queue"; account; queue; message] ->
  Py.truthy_opt account = true ->
  getattr (method req) = None ->
  __call__ self fuel req w
  = Ok (Responded (HTTPPreconditionFailed (Text "Bad HTTP method"))) w
  /\ getattr "PUT" = None /\ getattr "HEAD" = None.
Proof.
  intros Hsplit Hacc Hattr. split; [|split; reflexivity].
  unfold __call__. rewrite Hsplit. cbn [Py.str_opt].
  change ("queue" =? "queue")%string with true.
  rewrite Hacc, Hattr. reflexivity.
Qed.

(** C10 (the code falls short of it).  [still_pending] is a method other
    than GET, POST and DELETE, the request is in the queue namespace, and
    the answer is not Precondition Failed: [getattr] finds the helper of
    that name, the helper returns [None], calling [None] raises
    [TypeError], and nothing is sent to the store. *)
Theorem helper_name_as_method_is_not_rejected :
  let req := RefStore.request "still_pending" "/queue/acct/q" (Text "") in
  method req <> "GET" /\ method req <> "POST" /\ method req <> "DELETE"
  /\ split_path (script_name req ++ path_info req) 1 4
     = Some [Some "queue"; Some "acct"; Some "q"; None]
  /\ getattr (method req) = Some A_still_pending
  /\ __call__ (RefStore.queue 2) 1 req (Scenario.world Scenario.store_A)
     = Raise TypeError (Scenario.world Scenario.store_A).
Proof.
  cbv zeta. repeat split; try discriminate; vm_compute; reflexivity.
Qed.

(** * Further properties of the code *)

(** X1. Identifiers issued by one instance fewer than [COUNTER_LIMIT]
    calls apart are different, whatever the clock reads (even when it
    stands still or steps back). *)
Theorem uid_distinct_within_counter_period
        (self : SortableUid) (ts : list Q) (i j : nat) (a b : string) :
  (i < j)%nat -> Z.of_nat (j - i) < COUNTER_LIMIT ->
  nth_error (SortableUid_.issue ts self) i = Some a ->
  nth_error (SortableUid_.issue ts self) j = Some b ->
  a <> b.
Proof.
  intros Hij Hd Ha Hb E.
  apply UidMore.issue_nth_counter in Ha as (ti & _ & ->).
  apply UidMore.issue_nth_counter in Hb as (tj & _ & ->).
  apply UidMore.UID_FORMAT_counter in E;
    try (rewrite UidMore.COUNTER_LIMIT_eq; apply Z.mod_pos_bound; lia).
  rewrite UidMore.COUNTER_LIMIT_eq in E, Hd.
  assert (D : (Z.of_nat j - Z.of_nat i) mod 4096 = 0).
  { replace (Z.of_nat j - Z.of_nat i)
      with ((_counter self + Z.of_nat j + 1) - (_counter self + Z.of_nat i + 1))
      by lia.
    rewrite Zminus_mod, E, Z.sub_diag. reflexivity. }
  rewrite Z.mod_small in D by lia. lia.
Qed.

Lemma uid_distinct_within_counter_period_witness :
  "e8d4a51000a3fffe" <> "e8d4a51000a3f000".
Proof.
  apply (uid_distinct_within_counter_period
           {| _id := "a3f"; _counter := 4093 |}
           (repeat (1000000000 # 1)%Q 3) 0 2).
  - lia.
  - vm_compute; reflexivity.
  - vm_compute; reflexivity.
  - vm_compute; reflexivity.
Defined.

(** X2. The counter has [COUNTER_LIMIT] values and nothing else tells
    apart two identifiers of one millisecond: the identifier issued
    [COUNTER_LIMIT] calls after another one, within the same millisecond,
    is the same identifier. *)
Theorem uid_repeats_after_counter_period
        (self : SortableUid) (ts : list Q) (i : nat) (ti tj : Q)
        (a b : string) :
  nth_error ts i = Some ti ->
  nth_error ts (i + Z.to_nat COUNTER_LIMIT) = Some tj ->
  SortableUid_.millis ti = SortableUid_.millis tj ->
  nth_error (SortableUid_.issue ts self) i = Some a ->
  nth_error (SortableUid_.issue ts self) (i + Z.to_nat COUNTER_LIMIT) = Some b ->
  a = b.
Proof.
  intros Hti Htj Hm Ha Hb.
  apply UidMore.issue_nth_counter in Ha as (ti' & Hti' & ->).
  apply UidMore.issue_nth_counter in Hb as (tj' & Htj' & ->).
  rewrite Hti in Hti'. rewrite Htj in Htj'.
  inversion Hti'; inversion Htj'; subst ti' tj'.
  unfold UID_FORMAT.
  change (py_int (Float64.mul ti 1000)) with (SortableUid_.millis ti).
  change (py_int (Float64.mul tj 1000)) with (SortableUid_.millis tj).
  rewrite Hm. do 3 f_equal.
  rewrite Nat2Z.inj_add, Z2Nat.id by (rewrite UidMore.COUNTER_LIMIT_eq; lia).
  replace (_counter self + (Z.of_nat i + COUNTER_LIMIT) + 1)
    with (_counter self + Z.of_nat i + 1 + 1 * COUNTER_LIMIT) by lia.
  now rewrite Z.mod_add by (rewrite UidMore.COUNTER_LIMIT_eq; lia).
Qed.

Lemma uid_repeats_after_counter_period_witness :
  "e8d4a51000a3f001" = "e8d4a51000a3f001".
Proof.
  apply (uid_repeats_after_counter_period
           {| _id := "a3f"; _counter := 0 |}
           (repeat (1000000000 # 1)%Q 4097) 0
           (1000000000 # 1)%Q (1000000000 # 1)%Q).
  - vm_compute; reflexivity.
  - vm_compute; reflexivity.
  - reflexivity.
  - vm_compute; reflexivity.
  - vm_compute; reflexivity.
Defined.

(** X3. [TIME_DIGITS] is a minimum width, not a bound: a timestamp of
    [w >= TIME_DIGITS] digits is written with all its [w] digits, and
    two identifiers of one instance whose timestamps have the same
    number of digits (as those of the present, which have eleven)
    compare as their timestamps do. *)
Theorem uid_order_among_equal_width_timestamps
        (self : SortableUid) (ts : list Q) (w i j : nat) (ti tj : Q)
        (a b : string) :
  (TIME_DIGITS <= w)%nat ->
  nth_error ts i = Some ti -> nth_error ts j = Some tj ->
  nth_error (SortableUid_.issue ts self) i = Some a ->
  nth_error (SortableUid_.issue ts self) j = Some b ->
  SortableUid_.millis ti < SortableUid_.millis tj ->
  16 ^ Z.of_nat (w - 1) <= SortableUid_.millis ti ->
  SortableUid_.millis tj < 16 ^ Z.of_nat w ->
  (exists ca,
      a = (Hex.fixed w (SortableUid_.millis ti)
           ++ _id self ++ Hex.format COUNTER_DIGITS ca)%string)
  /\ (exists cb,
         b = (Hex.fixed w (SortableUid_.millis tj)
              ++ _id self ++ Hex.format COUNTER_DIGITS cb)%string)
  /\ PyStr.lt a b.
Proof.
  intros Hw Hti Htj Ha Hb Hm Hlo Hhi.
  destruct (UidFacts.issue_nth _ _ _ _ _ Hti Ha) as [ca ->].
  destruct (UidFacts.issue_nth _ _ _ _ _ Htj Hb) as [cb ->].
  unfold PyStr.lt, UID_FORMAT.
  change (py_int (Float64.mul ti 1000)) with (SortableUid_.millis ti).
  change (py_int (Float64.mul tj 1000)) with (SortableUid_.millis tj).
  unfold TIME_DIGITS in Hw.
  pose proof (Z.pow_pos_nonneg 16 (Z.of_nat (w - 1)) ltac:(lia) ltac:(lia)).
  rewrite (UidMore.format_wide TIME_DIGITS w (SortableUid_.millis ti))
    by (unfold TIME_DIGITS; lia).
  rewrite (UidMore.format_wide TIME_DIGITS w (SortableUid_.millis tj))
    by (unfold TIME_DIGITS; lia).
  split; [exists ca; reflexivity|].
  split; [exists cb; reflexivity|].
  apply HexFacts.fixed_lt; lia.
Qed.

Lemma uid_order_among_equal_width_timestamps_witness :
  (exists ca, "18bcfe5687da3f001"
              = (Hex.fixed 11 1700000000125 ++ "a3f"
                 ++ Hex.format COUNTER_DIGITS ca)%string)
  /\ (exists cb, "18bcfe568faa3f002"
                 = (Hex.fixed 11 1700000000250 ++ "a3f"
                    ++ Hex.format COUNTER_DIGITS cb)%string)
  /\ PyStr.lt "18bcfe5687da3f001" "18bcfe568faa3f002".
Proof.
  apply (uid_order_among_equal_width_timestamps
           {| _id := "a3f"; _counter := 0 |}
           [(13600000001 # 8)%Q; (6800000001 # 4)%Q] 11 0 1
           (13600000001 # 8)%Q (6800000001 # 4)%Q).
  - unfold TIME_DIGITS; lia.
  - reflexivity.
  - reflexivity.
  - vm_compute; reflexivity.
  - vm_compute; reflexivity.
  - vm_compute; reflexivity.
  - vm_compute; discriminate.
  - vm_compute; reflexivity.
Defined.

(** ** The naming convention of the listing *)

Module NamingFacts.







End NamingFacts.






(** ** More on the handlers *)

(** X7. Get-message-by-id never delivers a payload.  It sends exactly one
    request, the HEAD on the tombstone, and its outcome is decided by the
    answer: No Content when the tombstone is there (2xx); [AttributeError]
    when it is not (404), because [get_message] then looks up
    [self.increment]; [TypeError] otherwise, because [raise resp] is
    given a response, which is not an exception. *)
Theorem get_by_id_never_delivers
        {S} (self : MessageQueue S) (fuel : nat) (req : Request)
        (account container id : string) (w : World S) :
  PyStr.truthy id = true ->
  let probe := tombstone_probe req account container id in
  let r := fst (app self probe (store w)) in
  let w1 := sending w probe (snd (app self probe (store w))) in
  GET self fuel req account container (Some id) w
  = if status0_is_2 r then Ok (Some HTTPNoContent) w1
    else if (status_int r =? 404)%nat then Raise AttributeError w1
    else Raise TypeError w1.
Proof.
  intros Hid probe r w1. subst r w1.
  destruct (app self probe (store w)) as [r s'] eqn:Happ. cbn [fst snd].
  destruct (status0_is_2 r) eqn:H2.
  - exact (GET_by_id_deleted self fuel req account container id w r s'
             Hid Happ H2).
  - unfold GET. cbn [Py.truthy_opt Py.str_opt]. rewrite Hid. unfold bind at 1.
    destruct (status_int r =? 404)%nat eqn:H4.
    + apply Nat.eqb_eq in H4.
      rewrite (is_deleted_false self req account container id w r s' Happ H4).
      reflexivity.
    + apply Nat.eqb_neq in H4.
      now rewrite (is_deleted_raise self req account container id w r s'
                     Happ H2 H4).
Qed.

Lemma get_by_id_never_delivers_witness :
  let req := Scenario.incoming "GET" "/acct/q/e8d4a51000a3f001" (Text "") in
  let w := Scenario.world Scenario.store_A in
  let w1 := sending w (tombstone_probe req "acct" ".queue-q" Scenario.id_A)
                    Scenario.store_A in
  GET (RefStore.queue 10) 3 req "acct" ".queue-q" (Some Scenario.id_A) w
  = Raise AttributeError w1
  /\ GET Scenario.faulty_queue 3 req "acct" ".queue-q" (Some Scenario.id_A) w
     = Raise TypeError w1.
Proof.
  intros req w w1. split.
  - exact (get_by_id_never_delivers (RefStore.queue 10) 3 req "acct" ".queue-q"
             Scenario.id_A w eq_refl).
  - exact (get_by_id_never_delivers Scenario.faulty_queue 3 req "acct"
             ".queue-q" Scenario.id_A w eq_refl).
Defined.

(** X8. Claim-next on an empty queue: when the first listing answers 204,
    or 2xx with an empty JSON value, the answer is No Content after that
    one request, with any fuel. *)
Theorem claim_next_on_empty_queue
        {S} (self : MessageQueue S) (fuel : nat) (req : Request)
        (account container : string) (w : World S) (r : Response) (s' : S) :
  PyStr.truthy container = true ->
  app self (listing_read req account container) (store w) = (r, s') ->
  (status_int r = 204%nat
   \/ ((200 <= status_int r < 300)%nat
       /\ exists v, resp_body r = Json v /\ Py.truthy v = false)) ->
  GET self fuel req account container None w
  = Ok (Some HTTPNoContent)
       (sending w (listing_read req account container) s').
Proof.
  intros Hc Happ Hr. unfold GET. cbn [Py.truthy_opt]. rewrite Hc.
  unfold bind at 1. unfold get_message_list. unfold bind at 1.
  unfold list_container. fold (listing_read req account container).
  cbn [Py.truthy]. unfold bind at 1. unfold ret at 1.
  unfold bind at 1. unfold get_response. rewrite Happ.
  destruct Hr as [H204|(Hrange & v & Hv & Hfalse)].
  - rewrite H204. cbn [Nat.eqb]. unfold ret at 1.
    destruct fuel; reflexivity.
  - destruct (status_int r =? 204)%nat.
    + unfold ret at 1. destruct fuel; reflexivity.
    + assert (E : ((status_int r <? 200) || (300 <=? status_int r))%nat = false).
      { apply orb_false_iff. split;
          [apply Nat.ltb_ge|apply Nat.leb_gt]; lia. }
      rewrite E, Hv. cbn [Py.json_loads lift]. unfold bind at 1.
      unfold ret at 1. unfold ret at 1.
      destruct fuel; cbn [get_message_list_pages]; rewrite Hfalse; reflexivity.
Qed.

Lemma claim_next_on_empty_queue_witness :
  let req := Scenario.incoming "GET" "/acct/q" (Text "") in
  let w := Scenario.world [] in
  GET (RefStore.queue 10) 0 req "acct" ".queue-q" None w
  = Ok (Some HTTPNoContent)
       (sending w (listing_read req "acct" ".queue-q") []).
Proof.
  intros req w.
  apply (claim_next_on_empty_queue (RefStore.queue 10) 0 req "acct" ".queue-q"
           w (mkResponse 204 (Text "")) []).
  - reflexivity.
  - vm_compute; reflexivity.
  - left. reflexivity.
Defined.

(** The witness of [claim_next_never_claims] (X9): on a queue with one
    available message claim-next ends in an exception, having sent no
    write. *)
Lemma claim_next_never_claims_witness :
  let req := Scenario.incoming "GET" "/acct/q" (Text "") in
  let w := Scenario.world Scenario.store_A in
  match GET (RefStore.queue 10) 3 req "acct" ".queue-q" None w with
  | Ok resp w' => resp = Some HTTPNoContent /\ writes w' = writes w
  | Raise _ w' => writes w' = writes w
  | OutOfFuel => True
  end.
Proof.
  intros req w.
  exact (claim_next_never_claims (RefStore.queue 10) 3 req "acct" ".queue-q"
           w eq_refl).
Defined.

(** X10. Acknowledge when the store fails on the tombstone: a HEAD that
    answers neither 2xx nor 404 ends the call in [TypeError] ([raise resp]
    is given a response, which is not an exception), after that HEAD
    alone: no tombstone is written. *)
Theorem DELETE_writes_nothing_on_probe_error
        {S} (self : MessageQueue S) (req : Request)
        (account container id : string) (w : World S) (r : Response) (s' : S) :
  PyStr.truthy id = true ->
  app self (tombstone_probe req account container id) (store w) = (r, s') ->
  status0_is_2 r = false -> status_int r <> 404%nat ->
  DELETE self req account container (Some id) w
  = Raise TypeError (sending w (tombstone_probe req account container id) s')
  /\ writes (sending w (tombstone_probe req account container id) s')
     = writes w.
Proof.
  intros Hid Happ H2 H4. split.
  - unfold DELETE. cbn [Py.truthy_opt Py.str_opt]. rewrite Hid.
    unfold bind at 1.
    now rewrite (is_deleted_raise self req account container id w r s'
                   Happ H2 H4).
  - unfold writes. cbn [sending sent]. apply filter_write_probe.
Qed.

Lemma DELETE_writes_nothing_on_probe_error_witness :
  let req := Scenario.incoming "DELETE" "/acct/q/e8d4a51000a3f001" (Text "") in
  let w := Scenario.world Scenario.store_AB in
  let w' := sending w (tombstone_probe req "acct" ".queue-q" Scenario.id_A)
                    Scenario.store_AB in
  DELETE Scenario.faulty_queue req "acct" ".queue-q" (Some Scenario.id_A) w
  = Raise TypeError w'
  /\ writes w' = writes w.
Proof.
  intros req w w'.
  apply (DELETE_writes_nothing_on_probe_error Scenario.faulty_queue req
           "acct" ".queue-q" Scenario.id_A w (mkResponse 500 (Text ""))
           Scenario.store_AB).
  - reflexivity.
  - vm_compute; reflexivity.
  - reflexivity.
  - vm_compute; discriminate.
Defined.

Module EnqueueFacts.

(** What one enqueue does to the world. *)
Lemma POST_message_run {S} (self : MessageQueue S) (req : Request)
      (account container : string) (w : World S) :
  let new_id := fst (SortableUid_.get (clock w (ticks w)) (_uid_generator w)) in
  let put := payload_write req account container new_id in
  exists resp,
    POST self req account container (Some "message") w
    = Ok (Some resp)
         {| store := snd (app self put (store w));
            sent := (sent w ++ [put])%list;
            _uid_generator :=
              snd (SortableUid_.get (clock w (ticks w)) (_uid_generator w));
            clock := clock w;
            ticks := Datatypes.S (ticks w) |}.
Proof.
  intros new_id put. unfold POST.
  change (Py.truthy_opt (Some "message")) with true.
  change (negb (Py.str_opt (Some "message") =? "message")%string) with false.
  cbv iota.
  unfold bind, generate_id, bind, time_time, get_response.
  cbn [ticking store sent _uid_generator clock ticks].
  subst put new_id.
  destruct (SortableUid_.get (clock w (ticks w)) (_uid_generator w))
    as [nid g] eqn:Eg.
  cbn [fst snd store]. fold (payload_write req account container nid).
  destruct (app self (payload_write req account container nid) (store w))
    as [resp s'] eqn:E.
  cbn [fst snd]. unfold sending. cbn [store sent _uid_generator clock ticks].
  destruct (status0_is_2 resp); eexists; reflexivity.
Qed.

(** Two identifiers issued one after the other are different. *)
Lemma consecutive_ids_differ (t1 t2 : Q) (g : SortableUid) :
  fst (SortableUid_.get t1 g)
  <> fst (SortableUid_.get t2 (snd (SortableUid_.get t1 g))).
Proof.
  unfold SortableUid_.get. cbn [fst snd _id _counter]. intros E.
  apply UidMore.UID_FORMAT_counter in E;
    try (apply Z.mod_pos_bound; rewrite UidMore.COUNTER_LIMIT_eq; lia).
  rewrite UidMore.COUNTER_LIMIT_eq in E.
  pose proof (Z.mod_pos_bound (_counter g + 1) 4096 ltac:(lia)) as B.
  set (c := (_counter g + 1) mod 4096) in *.
  destruct (Z.eq_dec c 4095) as [->|N].
  - vm_compute in E. discriminate E.
  - rewrite (Z.mod_small (c + 1) 4096) in E by lia. lia.
Qed.

Lemma payload_key_inj (account container id1 id2 : string) :
  (obj_path account container id1 ++ "/msg"
   = obj_path account container id2 ++ "/msg")%string -> id1 = id2.
Proof.
  rewrite !PyStrFacts.obj_path_app. intros E.
  apply PyStrMore.append_inj_l in E.
  apply PyStrMore.append_inj_l in E.
  apply PyStrMore.append_inj_l in E.
  apply PyStrMore.append_inj_l in E.
  apply PyStrMore.append_inj_l in E.
  now apply PyStrMore.append_inj_r in E.
Qed.

End EnqueueFacts.

(** X11. Two enqueues in a row on one queue, whatever the clock reads and
    whatever the store answers: each sends one PUT, and the two PUTs go to
    different keys, so the second never overwrites the payload of the
    first. *)
Theorem consecutive_enqueues_use_distinct_keys
        {S} (self : MessageQueue S) (req1 req2 : Request)
        (account container : string) (w : World S) :
  exists resp1 w1 resp2 w2 put1 put2,
    POST self req1 account container (Some "message") w = Ok (Some resp1) w1
    /\ POST self req2 account container (Some "message") w1 = Ok (Some resp2) w2
    /\ sent w2 = (sent w ++ [put1; put2])%list
    /\ method put1 = "PUT" /\ method put2 = "PUT"
    /\ path_info put1 <> path_info put2.
Proof.
  destruct (EnqueueFacts.POST_message_run self req1 account container w)
    as [resp1 H1].
  set (w1 := {| store := _; sent := _; _uid_generator := _;
                clock := _; ticks := _ |}) in H1.
  destruct (EnqueueFacts.POST_message_run self req2 account container w1)
    as [resp2 H2].
  eexists resp1, w1, resp2, _, _, _.
  split; [exact H1|]. split; [exact H2|].
  split; [cbn [sent w1]; rewrite <- app_assoc; reflexivity|].
  split; [reflexivity|]. split; [reflexivity|].
  cbn [payload_write set_method set_path_info path_info].
  intros E. apply EnqueueFacts.payload_key_inj in E.
  subst w1. cbn [_uid_generator clock ticks] in E.
  exact (EnqueueFacts.consecutive_ids_differ _ _ _ E).
Qed.

(** ** Construction *)

Lemma conf_get_app (e d : Conf.dict) (k : string) :
  Conf.get (e ++ d)%list k
  = match Conf.get e k with Some v => Some v | None => Conf.get d k end.
Proof.
  induction e as [|[k' v] e IH]; cbn [List.app Conf.get]; [reflexivity|].
  destruct (k' =? k)%string; [reflexivity|exact IH].
Qed.

(** X12. The prefix of the containers: the filter built by
    [filter_factory] takes it from the local configuration when that has a
    [prefix], else from the global one, else it is [.queue-]; and the
    application it wraps is the one it was given. *)
Theorem filter_factory_prefix
        {S} (global_conf local_conf : Conf.dict)
        (app_ : Request -> S -> Response * S) :
  prefix (filter_factory global_conf local_conf app_)
  = match Conf.get local_conf "prefix", Conf.get global_conf "prefix" with
    | Some p, _ => p
    | None, Some p => p
    | None, None => ".queue-"
    end
  /\ app (filter_factory global_conf local_conf app_) = app_.
Proof.
  split; [|reflexivity].
  unfold filter_factory, MessageQueue__init__, Conf.get_default,
    Conf.copy_update.
  cbn [prefix]. rewrite conf_get_app.
  destruct (Conf.get local_conf "prefix"); reflexivity.
Qed.

(** ** The request constraints *)

Module MetadataFacts.

Import Constraints MetadataSpec.

Lemma gtb_false (a b : Z) : (a >? b) = false <-> a <= b.
Proof. rewrite Z.gtb_ltb. apply Z.ltb_ge. Qed.

Lemma gtb_true (a b : Z) : (a >? b) = true <-> b < a.
Proof. rewrite Z.gtb_ltb. apply Z.ltb_lt. Qed.

Lemma len_nonneg (s : string) : 0 <= len s.
Proof. unfold len. lia. Qed.

Lemma total_size_nonneg prefix ms : 0 <= total_size prefix ms.
Proof.
  induction ms as [|kv ms IH]; cbn [total_size]; [lia|].
  pose proof (len_nonneg (meta_name prefix kv)).
  pose proof (len_nonneg (snd kv)). lia.
Qed.

Lemma truthy_false (s : string) : PyStr.truthy s = false <-> s = "".
Proof. destruct s; simpl; split; congruence. Qed.

Lemma metas_cons prefix key value hs :
  metas prefix ((key, value) :: hs)
  = if PyStr.startswith (lower key) prefix
    then (key, value) :: metas prefix hs else metas prefix hs.
Proof. reflexivity. Qed.

(** The loop, from counters [c] and [z]: what it accepts. *)
Lemma loop_accepts (lim : limits) (prefix : string) (hs : list (string * string)) :
  forall c z,
    check_metadata_loop lim prefix hs c z = None
    <-> Forall (header_ok lim) hs
        /\ Forall (meta_ok lim prefix) (metas prefix hs)
        /\ (metas prefix hs = []
            \/ (c + Z.of_nat (List.length (metas prefix hs))
                <= MAX_META_COUNT lim
                /\ z + total_size prefix (metas prefix hs)
                   <= MAX_META_OVERALL_SIZE lim)).
Proof.
  induction hs as [|[key value] hs IH]; intros c z.
  - cbn [check_metadata_loop metas filter].
    split; [intros _|reflexivity].
    split; [constructor|]. split; [constructor|]. left. reflexivity.
  - cbn [check_metadata_loop]. rewrite metas_cons.
    destruct (len value >? MAX_HEADER_SIZE lim) eqn:EH.
    { apply gtb_true in EH. split; [discriminate|].
      intros (H & _). inversion H; subst. unfold header_ok in *.
      cbn [snd] in *. lia. }
    apply gtb_false in EH.
    destruct (PyStr.startswith (lower key) prefix) eqn:EM; cbn [negb].
    2:{ rewrite IH. split.
        - intros (H1 & H2 & H3).
          split; [constructor; [exact EH|exact H1]|].
          split; assumption.
        - intros (H1 & H2 & H3). inversion H1; subst.
          split; [assumption|]. split; assumption. }
    change (slice_from key (String.length prefix))
      with (meta_name prefix (key, value)).
    set (name := meta_name prefix (key, value)).
    cbn [List.length total_size snd]. fold name.
    pose proof (total_size_nonneg prefix (metas prefix hs)) as Hts.
    pose proof (len_nonneg name) as Hln.
    pose proof (len_nonneg value) as Hlv.
    destruct (PyStr.truthy name) eqn:ET; cbn [negb].
    2:{ apply truthy_false in ET. split; [discriminate|].
        intros (_ & H & _). inversion H; subst.
        destruct H2 as (Hne & _). contradiction. }
    assert (Hne : name <> "") by (intros E; rewrite E in ET; discriminate).
    destruct (len name >? MAX_META_NAME_LENGTH lim) eqn:EN.
    { apply gtb_true in EN. split; [discriminate|].
      intros (_ & H & _). inversion H; subst.
      destruct H2 as (_ & Hb & _). fold name in Hb. lia. }
    apply gtb_false in EN.
    destruct (len value >? MAX_META_VALUE_LENGTH lim) eqn:EV.
    { apply gtb_true in EV. split; [discriminate|].
      intros (_ & H & _). inversion H; subst.
      destruct H2 as (_ & _ & Hb). cbn [snd] in Hb. lia. }
    apply gtb_false in EV.
    destruct (c + 1 >? MAX_META_COUNT lim) eqn:EC.
    { apply gtb_true in EC. split; [discriminate|].
      intros (_ & _ & [H|(H & _)]); [discriminate H|].
      rewrite Nat2Z.inj_succ in H. lia. }
    apply gtb_false in EC.
    destruct (z + (len name + len value) >? MAX_META_OVERALL_SIZE lim) eqn:ES.
    { apply gtb_true in ES. split; [discriminate|].
      intros (_ & _ & [H|(_ & H)]); [discriminate H|]. lia. }
    apply gtb_false in ES.
    rewrite IH. rewrite Nat2Z.inj_succ. split.
    + intros (H1 & H2 & H3).
      split; [constructor; [exact EH|exact H1]|].
      split; [constructor; [|exact H2]; repeat split; assumption|].
      right. destruct H3 as [H3|H3].
      * rewrite H3. cbn [List.length total_size]. lia.
      * lia.
    + intros (H1 & H2 & H3). inversion H1; subst. inversion H2; subst.
      split; [assumption|]. split; [assumption|].
      destruct H3 as [H3|H3]; [discriminate H3|]. right. lia.
Qed.

(** Rearranging the headers rearranges the metadata items. *)
Lemma metas_perm prefix (hs hs' : list (string * string)) :
  Permutation hs hs' ->
  Permutation (metas prefix hs) (metas prefix hs').
Proof.
  unfold metas. induction 1 as [|x l l' _ IH|x y l|l l' l'' _ IH1 _ IH2];
    cbn [filter].
  - constructor.
  - destruct (is_meta prefix x); [constructor|]; assumption.
  - destruct (is_meta prefix x), (is_meta prefix y);
      try apply Permutation_refl.
    apply perm_swap.
  - eapply perm_trans; eassumption.
Qed.

Lemma total_size_perm prefix (ms ms' : list (string * string)) :
  Permutation ms ms' -> total_size prefix ms = total_size prefix ms'.
Proof.
  induction 1; cbn [total_size]; lia.
Qed.

Lemma metas_nil_perm prefix (hs hs' : list (string * string)) :
  Permutation hs hs' ->
  metas prefix hs = [] -> metas prefix hs' = [].
Proof.
  intros P E. apply (metas_perm prefix) in P. rewrite E in P.
  now apply Permutation_nil in P.
Qed.

Lemma loop_accepts_perm lim prefix (hs hs' : list (string * string)) c z :
  Permutation hs hs' ->
  check_metadata_loop lim prefix hs c z = None ->
  check_metadata_loop lim prefix hs' c z = None.
Proof.
  intros P. rewrite !loop_accepts. intros (H1 & H2 & H3).
  pose proof (metas_perm prefix _ _ P) as PM.
  split; [eapply Permutation_Forall; eassumption|].
  split; [eapply Permutation_Forall; eassumption|].
  destruct H3 as [H3|H3].
  - left. eapply metas_nil_perm; eassumption.
  - right. rewrite <- (Permutation_length PM).
    now rewrite <- (total_size_perm prefix _ _ PM).
Qed.

(** A header that is not metadata and is not too long does not count,
    wherever it stands. *)
Lemma loop_frame lim prefix key value (hs1 hs2 : list (string * string)) :
  len value <= MAX_HEADER_SIZE lim ->
  PyStr.startswith (lower key) prefix = false ->
  forall c z,
    check_metadata_loop lim prefix (hs1 ++ (key, value) :: hs2)%list c z
    = check_metadata_loop lim prefix (hs1 ++ hs2)%list c z.
Proof.
  intros Hv Hk. apply gtb_false in Hv.
  induction hs1 as [|[k v] hs1 IH]; intros c z.
  - cbn [List.app check_metadata_loop]. now rewrite Hv, Hk.
  - cbn [List.app check_metadata_loop].
    destruct (len v >? MAX_HEADER_SIZE lim); [reflexivity|].
    destruct (negb (PyStr.startswith (lower k) prefix)); [apply IH|].
    destruct (negb (PyStr.truthy (slice_from k (String.length prefix))));
      [reflexivity|].
    cbv zeta.
    repeat match goal with
           | |- (if ?b then _ else _) = (if ?b then _ else _) =>
               destruct b; [reflexivity|]
           end.
    apply IH.
Qed.

End MetadataFacts.

(** X13. What [check_metadata] accepts, with limits that are not
    negative: it returns [None] exactly when no header value is longer
    than [MAX_HEADER_SIZE], every metadata header of the target has a
    name that is not empty and not longer than [MAX_META_NAME_LENGTH] and
    a value not longer than [MAX_META_VALUE_LENGTH], there are at most
    [MAX_META_COUNT] of them, and their names and values together take at
    most [MAX_META_OVERALL_SIZE] bytes. *)
Theorem check_metadata_accepts_iff
        (lim : Constraints.limits) (req : Constraints.request)
        (target_type : string) :
  0 <= Constraints.MAX_META_COUNT lim ->
  0 <= Constraints.MAX_META_OVERALL_SIZE lim ->
  Constraints.check_metadata lim req target_type = None
  <-> MetadataSpec.acceptable lim (Constraints.meta_prefix target_type)
        (Constraints.headers req).
Proof.
  intros Hc Hs. unfold Constraints.check_metadata, MetadataSpec.acceptable.
  rewrite MetadataFacts.loop_accepts. rewrite !Z.add_0_l.
  split; intros (H1 & H2 & H3); (split; [exact H1|]); (split; [exact H2|]).
  - destruct H3 as [E|H3]; [|exact H3].
    rewrite E. cbn [List.length MetadataSpec.total_size]. lia.
  - right. exact H3.
Qed.

Lemma check_metadata_accepts_iff_witness :
  let req := Constraints.mkRequestView (Some 3)
               [("Content-Type", "text/plain");
                ("X-Object-Meta-Color", "red")] in
  Constraints.check_metadata Constraints.defaults req "object" = None
  <-> MetadataSpec.acceptable Constraints.defaults
        (Constraints.meta_prefix "object") (Constraints.headers req).
Proof.
  intros req.
  apply (check_metadata_accepts_iff Constraints.defaults req "object").
  - vm_compute; discriminate.
  - vm_compute; discriminate.
Defined.

(** X14. Whether [check_metadata] accepts a request does not depend on
    the order in which the headers come (they come out of a dict): two
    requests with the same headers in different orders are both accepted
    or both refused. *)
Theorem check_metadata_order_independent
        (lim : Constraints.limits) (req req' : Constraints.request)
        (target_type : string) :
  Permutation (Constraints.headers req) (Constraints.headers req') ->
  Constraints.check_metadata lim req target_type = None
  <-> Constraints.check_metadata lim req' target_type = None.
Proof.
  intros P. unfold Constraints.check_metadata. split.
  - now apply MetadataFacts.loop_accepts_perm.
  - apply MetadataFacts.loop_accepts_perm. now apply Permutation_sym.
Qed.

Lemma check_metadata_order_independent_witness :
  let h1 := ("X-Object-Meta-Color", "red") in
  let h2 := ("X-Object-Meta-Size", "large") in
  Constraints.check_metadata Constraints.defaults
    (Constraints.mkRequestView None [h1; h2]) "object" = None
  <-> Constraints.check_metadata Constraints.defaults
        (Constraints.mkRequestView None [h2; h1]) "object" = None.
Proof.
  intros h1 h2.
  apply (check_metadata_order_independent Constraints.defaults
           (Constraints.mkRequestView None [h1; h2])
           (Constraints.mkRequestView None [h2; h1]) "object").
  apply perm_swap.
Defined.

(** X15. A header that is not a metadata header of the target and whose
    value is not longer than [MAX_HEADER_SIZE] changes nothing, wherever
    it stands among the headers: [check_metadata] gives the same result,
    the same refusal included, with and without it. *)
Theorem check_metadata_ignores_other_headers
        (lim : Constraints.limits) (cl cl' : option Z)
        (hs1 hs2 : list (string * string)) (key value target_type : string) :
  Constraints.len value <= Constraints.MAX_HEADER_SIZE lim ->
  PyStr.startswith (Constraints.lower key)
                   (Constraints.meta_prefix target_type) = false ->
  Constraints.check_metadata lim
    (Constraints.mkRequestView cl (hs1 ++ (key, value) :: hs2)%list) target_type
  = Constraints.check_metadata lim
      (Constraints.mkRequestView cl' (hs1 ++ hs2)%list) target_type.
Proof.
  intros Hv Hk. unfold Constraints.check_metadata. cbn [Constraints.headers].
  now apply MetadataFacts.loop_frame.
Qed.

Lemma check_metadata_ignores_other_headers_witness :
  let long := PyStr.fill 129 "a"%char in
  let bad := ((("X-Object-Meta-" ++ long)%string), "v") in
  Constraints.check_metadata Constraints.defaults
    (Constraints.mkRequestView (Some 3)
       ([("X-Object-Meta-Color", "red")]
        ++ ("Content-Type", "text/plain") :: [bad])%list) "object"
  = Constraints.check_metadata Constraints.defaults
      (Constraints.mkRequestView None
         ([("X-Object-Meta-Color", "red")] ++ [bad])%list) "object".
Proof.
  intros long bad.
  apply (check_metadata_ignores_other_headers Constraints.defaults
           (Some 3) None [("X-Object-Meta-Color", "red")] [bad]
           "Content-Type" "text/plain" "object").
  - vm_compute; discriminate.
  - vm_compute; reflexivity.
Defined.

(** X16. What [check_object_creation] accepts: it returns [None] exactly
    when a content length that is given and not zero is at most
    [MAX_FILE_SIZE]; a request without content length is chunked; a copy
    request ([X-Copy-From] or [X-Copy-From-Account]) has no body; the
    object name is not longer than [MAX_OBJECT_NAME_LENGTH]; there is a
    [Content-Type], which [check_utf8] accepts; and [check_metadata]
    accepts the headers as metadata of an object. *)
Theorem check_object_creation_accepts_iff
        (lim : Constraints.limits) (decodes : string -> bool)
        (req : Constraints.request) (object_name : string) :
  Constraints.check_object_creation lim decodes req object_name = None
  <-> (forall k, Constraints.content_length req = Some k ->
                 k = 0 \/ k <= Constraints.MAX_FILE_SIZE lim)
      /\ (Constraints.content_length req = None ->
          Constraints.header_get (Constraints.headers req) "transfer-encoding"
          = Some "chunked")
      /\ (Constraints.header_in (Constraints.headers req) "X-Copy-From" = true
          \/ Constraints.header_in (Constraints.headers req)
               "X-Copy-From-Account" = true ->
          Constraints.truthy_length (Constraints.content_length req) = false)
      /\ Constraints.len object_name <= Constraints.MAX_OBJECT_NAME_LENGTH lim
      /\ exists ct,
           Constraints.header_get (Constraints.headers req) "Content-Type"
           = Some ct
           /\ Constraints.check_utf8 decodes ct = true
           /\ Constraints.check_metadata lim req "object" = None.
Proof.
  unfold Constraints.check_object_creation.
  destruct req as [cl hs]. cbn [Constraints.content_length Constraints.headers].
  set (copy := (Constraints.header_in hs "X-Copy-From"
                || Constraints.header_in hs "X-Copy-From-Account")).
  assert (Hcopy : copy = true <->
                  (Constraints.header_in hs "X-Copy-From" = true
                   \/ Constraints.header_in hs "X-Copy-From-Account" = true))
    by apply orb_true_iff.
  destruct cl as [k|]; cbn [Constraints.truthy_length andb].
  - destruct (k =? 0) eqn:E0; cbn [negb andb].
    + apply Z.eqb_eq in E0. subst k. rewrite andb_false_r.
      destruct (Constraints.len object_name
                >? Constraints.MAX_OBJECT_NAME_LENGTH lim) eqn:EN.
      { apply MetadataFacts.gtb_true in EN. split; [discriminate|].
        intros (_ & _ & _ & H & _). lia. }
      apply MetadataFacts.gtb_false in EN.
      destruct (Constraints.header_get hs "Content-Type") as [ct|].
      2:{ split; [discriminate|]. intros (_ & _ & _ & _ & ct & H & _).
          discriminate H. }
      destruct (Constraints.check_utf8 decodes ct) eqn:EU; cbn [negb].
      2:{ split; [discriminate|]. intros (_ & _ & _ & _ & ct' & H & U & _).
          inversion H; subst. congruence. }
      split.
      * intros HM. split; [intros k' Hk'; inversion Hk'; auto|].
        split; [discriminate|]. split; [reflexivity|]. split; [exact EN|].
        exists ct. auto.
      * intros (_ & _ & _ & _ & ct' & H & _ & HM). exact HM.
    + apply Z.eqb_neq in E0.
      destruct (k >? Constraints.MAX_FILE_SIZE lim) eqn:EF.
      { apply MetadataFacts.gtb_true in EF. split; [discriminate|].
        intros (H & _). destruct (H k eq_refl); lia. }
      apply MetadataFacts.gtb_false in EF.
      destruct copy eqn:EC; cbn [andb].
      { split; [discriminate|]. intros (_ & _ & H & _).
        pose proof (proj1 Hcopy eq_refl) as Hc. apply H in Hc.
        discriminate Hc. }
      destruct (Constraints.len object_name
                >? Constraints.MAX_OBJECT_NAME_LENGTH lim) eqn:EN.
      { apply MetadataFacts.gtb_true in EN. split; [discriminate|].
        intros (_ & _ & _ & H & _). lia. }
      apply MetadataFacts.gtb_false in EN.
      destruct (Constraints.header_get hs "Content-Type") as [ct|].
      2:{ split; [discriminate|]. intros (_ & _ & _ & _ & ct & H & _).
          discriminate H. }
      destruct (Constraints.check_utf8 decodes ct) eqn:EU; cbn [negb].
      2:{ split; [discriminate|]. intros (_ & _ & _ & _ & ct' & H & U & _).
          inversion H; subst. congruence. }
      split.
      * intros HM. split; [intros k' Hk'; inversion Hk'; subst; auto|].
        split; [discriminate|].
        split; [intros H; apply Hcopy in H; discriminate H|].
        split; [exact EN|]. exists ct. auto.
      * intros (_ & _ & _ & _ & ct' & H & _ & HM). exact HM.
  - destruct (Constraints.header_get hs "transfer-encoding") as [te|] eqn:ET.
    2:{ cbn [negb andb]. split; [discriminate|].
        intros (_ & H & _). discriminate (H eq_refl). }
    destruct (te =? "chunked")%string eqn:EQ; cbn [negb andb].
    2:{ split; [discriminate|]. intros (_ & H & _).
        specialize (H eq_refl). inversion H; subst.
        rewrite String.eqb_refl in EQ. discriminate EQ. }
    apply String.eqb_eq in EQ. subst te. rewrite andb_false_r.
    destruct (Constraints.len object_name
              >? Constraints.MAX_OBJECT_NAME_LENGTH lim) eqn:EN.
    { apply MetadataFacts.gtb_true in EN. split; [discriminate|].
      intros (_ & _ & _ & H & _). lia. }
    apply MetadataFacts.gtb_false in EN.
    destruct (Constraints.header_get hs "Content-Type") as [ct|].
    2:{ split; [discriminate|]. intros (_ & _ & _ & _ & ct & H & _).
        discriminate H. }
    destruct (Constraints.check_utf8 decodes ct) eqn:EU; cbn [negb].
    2:{ split; [discriminate|]. intros (_ & _ & _ & _ & ct' & H & U & _).
        inversion H; subst. congruence. }
    split.
    + intros HM. split; [discriminate|]. split; [reflexivity|].
      split; [reflexivity|]. split; [exact EN|]. exists ct. auto.
    + intros (_ & _ & _ & _ & ct' & H & _ & HM). exact HM.
Qed.

(** ** More on the generator and on the scan *)

(** X17. The first identifier of a fresh instance, at a time whose
    milliseconds fit in ten digits: ten digits of time, the first
    [ID_DIGITS] characters of the uuid, and the counter [001]; sixteen
    characters when the uuid has at least three. *)
Theorem first_id_of_fresh_instance (uuid_hex : string) (now : Q) :
  0 <= SortableUid_.millis now < 16 ^ Z.of_nat TIME_DIGITS ->
  (ID_DIGITS <= String.length uuid_hex)%nat ->
  let id := fst (SortableUid_.get now (SortableUid__init__ uuid_hex)) in
  id = (Hex.fixed TIME_DIGITS (SortableUid_.millis now)
        ++ String.substring 0 ID_DIGITS uuid_hex ++ "001")%string
  /\ String.length id = 16%nat.
Proof.
  intros Hm Hu id.
  assert (E : id = (Hex.fixed TIME_DIGITS (SortableUid_.millis now)
                    ++ String.substring 0 ID_DIGITS uuid_hex ++ "001")%string).
  { subst id. unfold SortableUid_.get, SortableUid__init__.
    cbn [fst _id _counter]. unfold UID_FORMAT.
    change (py_int (Float64.mul now 1000)) with (SortableUid_.millis now).
    rewrite HexFacts.format_fixed by (unfold TIME_DIGITS in *; lia).
    reflexivity. }
  split; [exact E|]. rewrite E.
  rewrite !PyStrFacts.length_append, HexFacts.length_fixed.
  assert (L : forall (s : string) n, (n <= String.length s)%nat ->
                String.length (String.substring 0 n s) = n).
  { induction s as [|c s IH]; intros [|n] Hn; simpl in *; try lia.
    rewrite IH; lia. }
  rewrite (L _ _ Hu). reflexivity.
Qed.

Lemma first_id_of_fresh_instance_witness :
  let now := (8388608000016777 # 8388608)%Q in
  let id := fst (SortableUid_.get now
                   (SortableUid__init__ "a3f09c1e5b7d4e2f8a6b0c9d1e3f5a7b")) in
  SortableUid_.millis now = 1000000000002
  /\ id = "e8d4a51002a3f001"
  /\ String.length id = 16%nat.
Proof.
  intros now id. split; [vm_compute; reflexivity|].
  apply (first_id_of_fresh_instance "a3f09c1e5b7d4e2f8a6b0c9d1e3f5a7b" now).
  - split; [vm_compute; discriminate|vm_compute; reflexivity].
  - vm_compute. lia.
Defined.

(** X18. [get_message] on a message with a pending marker that the store
    returns (2xx, a JSON object with [expires]): while the lease runs
    ([time.time() < expires]) it returns [None]; once the lease has lapsed
    it does not reclaim the message, it ends in [AttributeError] at
    [self.increment].  Either way one request was sent, the GET of the
    marker, and the clock was read once. *)
Theorem get_message_on_readable_marker
        {S} (self : MessageQueue S) (req : Request)
        (account container msg p : string) (w : World S)
        (r : Response) (s' : S) (kvs : list (string * value)) (v : value) :
  PyStr.truthy p = true ->
  app self (marker_read req account container p) (store w) = (r, s') ->
  status0_is_2 r = true ->
  resp_body r = Json (VDict kvs) ->
  Py.assoc "expires" kvs = Some v ->
  let w' := ticking (sending w (marker_read req account container p) s') in
  get_message self req account container msg (Some p) w
  = if Py.float_lt (clock w (ticks w)) v then Ok None w'
    else Raise AttributeError w'.
Proof.
  intros Hp Happ H2 Hb Hv w'. unfold get_message.
  cbn [Py.truthy_opt Py.str_opt]. rewrite Hp.
  fold (marker_read req account container p).
  unfold bind at 1. unfold get_response. rewrite Happ, H2. cbn [negb].
  rewrite Hb. cbn [Py.json_loads lift]. unfold bind at 1. unfold ret at 1.
  unfold bind at 1. unfold time_time.
  cbn [Py.getitem]. rewrite Hv. cbn [lift]. unfold bind at 1.
  unfold ret at 1. cbn [sending clock ticks].
  destruct (Py.float_lt (clock w (ticks w)) v); reflexivity.
Qed.

Lemma get_message_on_readable_marker_witness :
  let req := Scenario.incoming "GET" "/acct/q" (Text "") in
  let p := (Scenario.id_A ++ "/" ++ Scenario.lease_A)%string in
  let w := RefStore.world Scenario.store_A_leased_B "a3f" (1000000061 # 1)%Q in
  get_message (RefStore.queue 10) req "acct" ".queue-q" Scenario.id_A (Some p) w
  = if Py.float_lt (clock w (ticks w)) (VNum (1000000060 # 1)%Q)
    then Ok None
            (ticking (sending w (marker_read req "acct" ".queue-q" p)
                              Scenario.store_A_leased_B))
    else Raise AttributeError
               (ticking (sending w (marker_read req "acct" ".queue-q" p)
                                 Scenario.store_A_leased_B)).
Proof.
  intros req p w.
  apply (get_message_on_readable_marker (RefStore.queue 10) req
           "acct" ".queue-q" Scenario.id_A p w
           (RefStore.ok (Json (VDict [("expires", VNum (1000000060 # 1)%Q)])))
           Scenario.store_A_leased_B
           [("expires", VNum (1000000060 # 1)%Q)]
           (VNum (1000000060 # 1)%Q)).
  - reflexivity.
  - vm_compute; reflexivity.
  - reflexivity.
  - reflexivity.
  - reflexivity.
Defined.

Module PagingFacts.


End PagingFacts.


